(** * better-monitor: the subnet rate limiter and the event pipeline of main.go

    A shallow embedding of [src/main.go].  Strings are byte strings, Go's
    [int] and [time.Duration] are 64-bit integers carried in [Z] with their
    wrap-around and saturation written out, the two maps of [SubnetTracker]
    are finite maps with Go's zero-value reads, and every tracker operation
    runs in a small monad that threads the tracker, records what the code
    writes to the outside world and records under which mutex state each
    field is touched. *)

From Stdlib Require Import ZArith Ascii String List Bool Lia.
From stdpp Require Import base option gmap strings.
Import ListNotations.

Local Open Scope string_scope.
Local Open Scope Z_scope.

(** ** The pieces of Go's [strings] package that main.go calls *)

Module Strings.

(** [strings.Split(s, sep)] for a one-byte separator: the pieces between
    the separators, [[""]] for the empty string. *)
Fixpoint Split (sep : ascii) (s : string) : list string :=
  match s with
  | EmptyString => [EmptyString]
  | String c s' =>
      if Ascii.eqb c sep then EmptyString :: Split sep s'
      else match Split sep s' with
           | [] => [String c EmptyString]
           | p :: ps => String c p :: ps
           end
  end.

(** [strings.Join(parts, sep)]. *)
Fixpoint Join (parts : list string) (sep : string) : string :=
  match parts with
  | [] => EmptyString
  | [p] => p
  | p :: rest => p ++ sep ++ Join rest sep
  end.

Fixpoint HasPrefix (s p : string) : bool :=
  match p, s with
  | EmptyString, _ => true
  | String _ _, EmptyString => false
  | String b p', String a s' => Ascii.eqb a b && HasPrefix s' p'
  end.

(** [strings.Contains(s, substr)]. *)
Fixpoint Contains (s substr : string) : bool :=
  HasPrefix s substr ||
  match s with
  | EmptyString => false
  | String _ s' => Contains s' substr
  end.

Definition lower (c : ascii) : ascii :=
  let n := nat_of_ascii c in
  if (Nat.leb 65 n && Nat.leb n 90)%bool then ascii_of_nat (n + 32) else c.

(** [strings.ToLower(s)] on the ASCII letters.  Bytes from 128 up are kept:
    no rune outside ASCII lowers to an ASCII [s] or [h], so the only use in
    main.go, the test for ["ssh"], reads the same. *)
Fixpoint ToLower (s : string) : string :=
  match s with
  | EmptyString => EmptyString
  | String c s' => String (lower c) (ToLower s')
  end.

(** A string without the byte [sep]: a single piece for [Split]. *)
Fixpoint free_of (sep : ascii) (s : string) : bool :=
  match s with
  | EmptyString => true
  | String c s' => negb (Ascii.eqb c sep) && free_of sep s'
  end.

End Strings.

(** ** getSubnet (main.go, lines 64-70) *)

Definition getSubnet (ip : string) : string :=
  let parts := Strings.Split "." ip in
  if negb (Nat.eqb (length parts) 4) then ip
  else Strings.Join (take 3 parts) "." ++ ".0/24".

(** ** The fragment of Go's [regexp] that the two extractors use

    Literals, the classes [\s], [\d], [\w] and [.], bounded and unbounded
    repetition of a class (greedy [+] and [{1,3}], lazy [*?]) and one capture
    group.  Matching is by backtracking in priority order, which is the
    leftmost-first result that [FindStringSubmatch] returns.  Text is matched
    byte by byte; the captures below hold ASCII only and every pattern starts
    on an ASCII byte, so this reads a line as Go's rune-wise matcher does. *)

Module Regexp.

Inductive re : Type :=
| Lit (l : string)
| Rep (p : ascii -> bool) (min : nat) (max : option nat) (greedy : bool)
| Cat (r1 r2 : re)
| Cap (r : re).

Definition between (lo hi : nat) (c : ascii) : bool :=
  (Nat.leb lo (nat_of_ascii c) && Nat.leb (nat_of_ascii c) hi)%bool.

(** [\d] *)
Definition digit (c : ascii) : bool := between 48 57 c.

(** [\s]: tab, newline, form feed, carriage return, space *)
Definition space (c : ascii) : bool :=
  let n := nat_of_ascii c in
  (Nat.eqb n 9 || Nat.eqb n 10 || Nat.eqb n 12 || Nat.eqb n 13 || Nat.eqb n 32)%bool.

(** [\w] *)
Definition word (c : ascii) : bool :=
  (between 48 57 c || between 65 90 c || between 97 122 c
   || Nat.eqb (nat_of_ascii c) 95)%bool.

(** [.] (no [s] flag: everything but a newline) *)
Definition any (c : ascii) : bool := negb (Nat.eqb (nat_of_ascii c) 10).

Definition orelse {A} (x y : option A) : option A :=
  match x with Some _ => x | None => y end.

Definition allows (max : option nat) : bool :=
  match max with Some O => false | _ => true end.

Fixpoint rep {A} (p : ascii -> bool) (greedy : bool) (min : nat)
    (max : option nat) (s : string) (k : string -> option A) : option A :=
  let stop := if Nat.eqb min 0 then k s else None in
  let more :=
    match s with
    | String c s' =>
        if (p c && allows max)%bool
        then rep p greedy (Nat.pred min) (Nat.pred <$> max) s' k
        else None
    | EmptyString => None
    end in
  if greedy then orelse more stop else orelse stop more.

Fixpoint skip (n : nat) (s : string) : string :=
  match n, s with
  | S n', String _ s' => skip n' s'
  | _, _ => s
  end.

(** The text of [s] in front of its suffix [rest]. *)
Definition consumed (s rest : string) : string :=
  substring 0 (String.length s - String.length rest) s.

Fixpoint exec {A} (r : re) (s : string) (cap : option string)
    (k : string -> option string -> option A) : option A :=
  match r with
  | Lit l =>
      if Strings.HasPrefix s l then k (skip (String.length l) s) cap else None
  | Rep p min max greedy => rep p greedy min max s (fun s' => k s' cap)
  | Cat r1 r2 => exec r1 s cap (fun s' cap' => exec r2 s' cap' k)
  | Cap r1 => exec r1 s cap (fun s' _ => k s' (Some (consumed s s')))
  end.

(** [re.FindStringSubmatch(s)]: [None] is the nil slice, otherwise the
    whole match followed by the text of the capture group. *)
Fixpoint FindStringSubmatch (r : re) (s : string) : option (list string) :=
  match exec r s None (fun s' cap => Some (s', cap)) with
  | Some (s', cap) => Some [consumed s s'; default EmptyString cap]
  | None =>
      match s with
      | String _ s' => FindStringSubmatch r s'
      | EmptyString => None
      end
  end.

Definition plus (p : ascii -> bool) : re := Rep p 1 None true.
Definition lazy_star (p : ascii -> bool) : re := Rep p 0 None false.
Definition upto3 (p : ascii -> bool) : re := Rep p 1 (Some 3%nat) true.

Fixpoint seq (rs : list re) : re :=
  match rs with
  | [] => Lit EmptyString
  | [r] => r
  | r :: rest => Cat r (seq rest)
  end.

End Regexp.

(** ** extractIP and extractUsername (main.go, lines 154-186) *)

(** [(\d{1,3}\.\d{1,3}\.\d{1,3}\.\d{1,3})] *)
Definition ipv4_group : Regexp.re :=
  Regexp.Cap (Regexp.seq
    [Regexp.upto3 Regexp.digit; Regexp.Lit "."; Regexp.upto3 Regexp.digit;
     Regexp.Lit "."; Regexp.upto3 Regexp.digit; Regexp.Lit ".";
     Regexp.upto3 Regexp.digit]).

Definition word_group : Regexp.re := Regexp.Cap (Regexp.plus Regexp.word).

Definition ip_patterns : list Regexp.re :=
  [ (* from\s+(ip) *)
    Regexp.seq [Regexp.Lit "from"; Regexp.plus Regexp.space; ipv4_group];
    (* (ip)\s+port *)
    Regexp.seq [ipv4_group; Regexp.plus Regexp.space; Regexp.Lit "port"];
    (* for\s+(ip) *)
    Regexp.seq [Regexp.Lit "for"; Regexp.plus Regexp.space; ipv4_group];
    (* user.*?(ip) *)
    Regexp.seq [Regexp.Lit "user"; Regexp.lazy_star Regexp.any; ipv4_group] ].

Definition user_patterns : list Regexp.re :=
  [ (* for\s+user\s+(\w+) *)
    Regexp.seq [Regexp.Lit "for"; Regexp.plus Regexp.space; Regexp.Lit "user";
                Regexp.plus Regexp.space; word_group];
    (* user\s+(\w+) *)
    Regexp.seq [Regexp.Lit "user"; Regexp.plus Regexp.space; word_group];
    (* for\s+(\w+) *)
    Regexp.seq [Regexp.Lit "for"; Regexp.plus Regexp.space; word_group] ].

(** The loop shared by the two extractors: the first pattern with a match
    gives [matches[1]], and [none] is returned when no pattern matches. *)
Fixpoint first_submatch (patterns : list Regexp.re) (line none : string) : string :=
  match patterns with
  | [] => none
  | r :: rest =>
      match Regexp.FindStringSubmatch r line with
      | Some (_ :: m1 :: _) => m1
      | _ => first_submatch rest line none
      end
  end.

Definition extractIP (line : string) : string :=
  first_submatch ip_patterns line "".

Definition extractUsername (line : string) : string :=
  first_submatch user_patterns line "unknown".

(** ** Machine integers and time *)

(** Go's [int] on the 64-bit targets: [x + 1] wraps around. *)
Definition wrap64 (z : Z) : Z := (z + 2 ^ 63) mod 2 ^ 64 - 2 ^ 63.

(** [time.Time] is an instant in nanoseconds; [time.Duration] is an int64
    and [Time.Sub] saturates at its two ends. *)
Definition maxDuration : Z := 2 ^ 63 - 1.
Definition minDuration : Z := - 2 ^ 63.
Definition Minute : Z := 60 * 1000000000.

Definition Sub (t u : Z) : Z :=
  let d := t - u in
  if maxDuration <? d then maxDuration
  else if d <? minDuration then minDuration
  else d.

(** ** What the program writes, and the tracker *)

(** The texts that main.go formats, by their format string.  The text of a
    block exists in two forms: [MsgBlock] is the [msg] of line 124, with
    backquotes round the subnet, which is logged and posted; [MsgBlockPlain]
    is the line that line 127 prints, without the backquotes. *)
Inductive message : Type :=
| MsgSuccess (ip location username : string)   (* "Successful login from %s (%s) as '%s'" *)
| MsgActivity (ip location subnet : string)    (* "SSH activity from %s (%s) Subnet: %s" *)
| MsgBlock (subnet : string) (count : Z)       (* "Subnet `%s` blocked > %d attempts in the last minute" *)
| MsgBlockPlain (subnet : string) (count : Z). (* "Subnet %s blocked > %d attempts in the last minute" *)

(** The records that [logEvent] appends to the log file. *)
Inductive record : Type :=
| RecRaw (line : string)             (* "Raw: %s" *)
| RecEvent (m : message)             (* "Event: %s" *)
| RecBlock (m : message)             (* "Block: %s" *)
| RecBlocked (ip subnet : string).   (* "Blocked attempt from %s (subnet %s)" *)

Inductive field : Type := Attempts | Blacklist | LastReset.

(** One entry per observable step, in program order: the mutex calls, each
    read or write of a tracker field together with whether the mutex was
    held at that moment, and the three outputs (standard output, the log
    file, the Discord webhook). *)
Inductive event : Type :=
| Lock
| Unlock
| Read (f : field) (held : bool)
| Write (f : field) (held : bool)
| Print (m : message)
| Log (r : record)
| Post (m : message).

Record SubnetTracker : Type := mkTracker {
  mu : bool;                      (* sync.Mutex: true while locked *)
  attempts : gmap string Z;       (* subnet -> attempts in last minute *)
  blacklist : gmap string bool;   (* subnet -> is blacklisted *)
  lastReset : Z                   (* last time attempts were reset *)
}.

Definition NewTracker (now : Z) : SubnetTracker :=
  mkTracker false ∅ ∅ now.

(** Reading a Go map gives the zero value for an absent key. *)
Definition attemptsOf (t : SubnetTracker) (subnet : string) : Z :=
  default 0 (attempts t !! subnet).

Definition blocked (t : SubnetTracker) (subnet : string) : bool :=
  default false (blacklist t !! subnet).

(** A run threads the tracker and appends to the trace; [None] is a run that
    never returns (locking a mutex this goroutine holds, or the fatal error
    of unlocking a free one). *)
Definition M (A : Type) : Type :=
  SubnetTracker -> option (A * SubnetTracker * list event).

Definition ret {A} (a : A) : M A := fun t => Some (a, t, []).

Definition bind {A B} (m : M A) (f : A -> M B) : M B :=
  fun t =>
    match m t with
    | None => None
    | Some (a, t1, e1) =>
        match f a t1 with
        | None => None
        | Some (b, t2, e2) => Some (b, t2, (e1 ++ e2)%list)
        end
    end.

Notation "'let*' x ':=' m 'in' k" := (bind m (fun x => k))
  (at level 10, x name, m at level 100, k at level 200).
Notation "m >> k" := (bind m (fun _ => k))
  (at level 90, right associativity).

Definition emit (e : event) : M unit := fun t => Some (tt, t, [e]).

Definition lock : M unit := fun t =>
  if mu t then None
  else Some (tt, mkTracker true (attempts t) (blacklist t) (lastReset t), [Lock]).

Definition unlock : M unit := fun t =>
  if mu t
  then Some (tt, mkTracker false (attempts t) (blacklist t) (lastReset t), [Unlock])
  else None.

(** [t.Lock(); defer t.Unlock()] around a function body. *)
Definition locked {A} (body : M A) : M A :=
  lock >> let* r := body in unlock >> ret r.

(** [t.blacklist[subnet]] *)
Definition readBlacklist (subnet : string) : M bool := fun t =>
  Some (blocked t subnet, t, [Read Blacklist (mu t)]).

(** [t.blacklist[subnet] = v] *)
Definition writeBlacklist (subnet : string) (v : bool) : M unit := fun t =>
  Some (tt, mkTracker (mu t) (attempts t) (<[subnet := v]> (blacklist t)) (lastReset t),
        [Write Blacklist (mu t)]).

(** [t.attempts[subnet]] *)
Definition readAttempts (subnet : string) : M Z := fun t =>
  Some (attemptsOf t subnet, t, [Read Attempts (mu t)]).

(** [t.attempts[subnet]++] *)
Definition incrAttempts (subnet : string) : M unit := fun t =>
  Some (tt,
        mkTracker (mu t) (<[subnet := wrap64 (attemptsOf t subnet + 1)]> (attempts t))
                  (blacklist t) (lastReset t),
        [Read Attempts (mu t); Write Attempts (mu t)]).

(** [t.attempts = make(map[string]int)] *)
Definition resetAttempts : M unit := fun t =>
  Some (tt, mkTracker (mu t) ∅ (blacklist t) (lastReset t), [Write Attempts (mu t)]).

(** [t.lastReset] *)
Definition readLastReset : M Z := fun t =>
  Some (lastReset t, t, [Read LastReset (mu t)]).

(** [t.lastReset = now] *)
Definition writeLastReset (now : Z) : M unit := fun t =>
  Some (tt, mkTracker (mu t) (attempts t) (blacklist t) now, [Write LastReset (mu t)]).

(** ** The three tracker operations (main.go, lines 103-152)

    The webhook URL and the log file are the same for a whole run and are
    left out of the arguments: [Post] is a post to that URL and [Log] a
    record appended to that file. *)

Definition isBlocked (subnet : string) : M bool :=
  locked (readBlacklist subnet).

Definition trackAttempt (subnet : string) : M unit :=
  locked (
    let* b := readBlacklist subnet in
    if b then ret tt
    else
      incrAttempts subnet >>
      let* n := readAttempts subnet in
      if 5 <? n then
        writeBlacklist subnet true >>
        let* n1 := readAttempts subnet in
        let msg := MsgBlock subnet n1 in
        let* n2 := readAttempts subnet in
        emit (Print (MsgBlockPlain subnet n2)) >>
        emit (Log (RecBlock msg)) >>
        emit (Post msg)
      else ret tt).

(** [now] is what [time.Now()] returns on line 141. *)
Definition cleanup (now : Z) : M unit :=
  let* last := readLastReset in
  if Sub now last <? Minute then ret tt
  else locked (resetAttempts >> writeLastReset now).

(** ** getGeoIP (main.go, lines 72-101) *)

(** The decoded answer of the lookup service. *)
Record GeoResult : Type := mkGeo {
  Country : string;
  City : string;
  Status : string
}.

(** [resp] is what the request yields: [None] when [http.Get] or the JSON
    decoding fails. *)
Definition getGeoIP (resp : option GeoResult) (ip : string) : string :=
  if String.eqb ip "" then "Unknown"
  else match resp with
       | None => "Unknown"
       | Some result =>
           if negb (String.eqb (Status result) "success") then "Unknown"
           else if (negb (String.eqb (City result) "")
                    && negb (String.eqb (Country result) ""))%bool
                then City result ++ ", " ++ Country result
                else "Unknown"
       end.

(** ** The loop of main (main.go, lines 226-281) *)

(** What one turn of the loop takes from outside: the line the scanner
    returns, the answer the lookup service would give for its address, and
    the clock reading of the [cleanup] call. *)
Record input : Type := mkInput {
  in_line : string;
  in_geo : option GeoResult;
  in_now : Z
}.

(** Lines 242-278: the decision for a line that carries an address. *)
Definition handleEvent (line ip : string) (geo : option GeoResult) : M unit :=
  let subnet := getSubnet ip in
  let* b := isBlocked subnet in
  if negb b then
    let location := getGeoIP geo ip in
    let username := extractUsername line in
    let ev :=
      if Strings.Contains line "Accepted"
      then MsgSuccess ip location username
      else MsgActivity ip location subnet in
    emit (Print ev) >>
    emit (Log (RecEvent ev)) >>
    emit (Post ev) >>
    if negb (Strings.Contains line "Accepted")
    then trackAttempt subnet
    else ret tt
  else
    emit (Log (RecBlocked ip subnet)).

(** Lines 227-280: the body of the loop; the two [continue]s end the turn. *)
Definition loopBody (i : input) : M unit :=
  let line := in_line i in
  emit (Log (RecRaw line)) >>
  if negb (Strings.Contains (Strings.ToLower line) "ssh") then ret tt
  else
    let ip := extractIP line in
    if String.eqb ip "" then ret tt
    else
      handleEvent line ip (in_geo i) >>
      cleanup (in_now i).

(** [for scanner.Scan() { ... }] over the lines the source delivers. *)
Fixpoint mainLoop (inputs : list input) : M unit :=
  match inputs with
  | [] => ret tt
  | i :: rest => loopBody i >> mainLoop rest
  end.

(** ** Calls of the tracker taken one at a time *)

Inductive op : Type :=
| OpIsBlocked (subnet : string)
| OpTrackAttempt (subnet : string)
| OpCleanup (now : Z).

Definition runOp (o : op) : M unit :=
  match o with
  | OpIsBlocked subnet => isBlocked subnet >> ret tt
  | OpTrackAttempt subnet => trackAttempt subnet
  | OpCleanup now => cleanup now
  end.

Fixpoint runOps (os : list op) : M unit :=
  match os with
  | [] => ret tt
  | o :: rest => runOp o >> runOps rest
  end.

(** ** Reading a trace *)

Definition is_block_alert (subnet : string) (e : event) : bool :=
  match e with
  | Post (MsgBlock s _) => String.eqb s subnet
  | _ => false
  end.

(** The number of block alerts sent for [subnet]. *)
Definition block_alerts (subnet : string) (tr : list event) : nat :=
  length (List.filter (is_block_alert subnet) tr).

Definition is_post (e : event) : bool :=
  match e with Post _ => true | _ => false end.

(** The posts to the webhook, in order. *)
Definition posts (tr : list event) : list event :=
  List.filter is_post tr.

Definition is_log (e : event) : bool :=
  match e with Log _ => true | _ => false end.

(** The records appended to the log file, in order. *)
Definition logs (tr : list event) : list event :=
  List.filter is_log tr.

(** A field access made while the mutex is free. *)
Definition unguarded (e : event) : bool :=
  match e with
  | Read _ held | Write _ held => negb held
  | _ => false
  end.

(** Every field access of the trace is made under the mutex. *)
Definition all_guarded (tr : list event) : bool :=
  forallb (fun e => negb (unguarded e)) tr.

(** One critical section: [Lock], then no further mutex call until the
    closing [Unlock], with every field access in between. *)
Definition one_critical_section (tr : list event) : bool :=
  match tr with
  | Lock :: rest =>
      match rev rest with
      | Unlock :: mid =>
          forallb (fun e => match e with Lock | Unlock => false | _ => true end) mid
      | _ => false
      end
  | _ => false
  end.

(** ** Traces of the single runs *)

(** [isBlocked], and [trackAttempt] on a blocked subnet. *)
Definition tr_query : list event := [Lock; Read Blacklist true; Unlock].

(** [trackAttempt] counting an attempt without blocking. *)
Definition tr_count : list event :=
  [Lock; Read Blacklist true; Read Attempts true; Write Attempts true;
   Read Attempts true; Unlock].

(** [trackAttempt] counting the attempt that blocks [g] at count [n]. *)
Definition tr_block (g : string) (n : Z) : list event :=
  [Lock; Read Blacklist true; Read Attempts true; Write Attempts true;
   Read Attempts true; Write Blacklist true; Read Attempts true;
   Read Attempts true; Print (MsgBlockPlain g n); Log (RecBlock (MsgBlock g n));
   Post (MsgBlock g n); Unlock].

(** [cleanup] resetting the window. *)
Definition tr_reset : list event :=
  [Read LastReset false; Lock; Write Attempts true; Write LastReset true; Unlock].

(** The announcement of an event: printed, logged, posted. *)
Definition tr_alert (ev : message) : list event :=
  [Print ev; Log (RecEvent ev); Post ev].

(** ** Predicates on lines, steps and turns *)

(** Whether a line gets past the two [continue]s of the loop body. *)
Definition relevant (line : string) : bool :=
  Strings.Contains (Strings.ToLower line) "ssh" && negb (String.eqb (extractIP line) "").

(** A step from [t] to [t'] with trace [tr] is sound when it ends with the
    mutex free, unblocks nothing, and sends, for each subnet, one block alert
    if the step is the one that blocks the subnet and none otherwise. *)

Definition sound_step (t t' : SubnetTracker) (tr : list event) : Prop :=
  mu t' = false /\
  (forall g, blocked t g = true -> blocked t' g = true) /\
  (forall g, block_alerts g tr =
             if (negb (blocked t g) && blocked t' g)%bool then 1%nat else 0%nat).

(** The turn on [i] from [t] ends with a call of [cleanup]: its trace ends
    with the trace of that call, which yields the tracker of the turn. *)
Definition ends_with_cleanup (i : input) (t : SubnetTracker) : Prop :=
  exists t1 tr1 t' tr2,
    loopBody i t = Some (tt, t', (tr1 ++ tr2)%list) /\
    cleanup (in_now i) t1 = Some (tt, t', tr2).

(** ** Sample states and lines *)

Definition subnet0 : string := "10.0.0.0/24".

(** Five attempts counted in the window, nothing blocked. *)
Definition at_threshold : SubnetTracker :=
  mkTracker false {[ subnet0 := 5 ]} ∅ 0.

(** [subnet0] was blocked by its sixth attempt. *)
Definition after_block : SubnetTracker :=
  mkTracker false {[ subnet0 := 6 ]} {[ subnet0 := true ]} 0.

Definition failed_line : string :=
  "sshd[811]: Failed password for root from 10.0.0.7 port 52044 ssh2".

Definition accepted_line : string :=
  "sshd[811]: Accepted password for root from 10.0.0.7 port 52044 ssh2".

Definition lowercase_line : string :=
  "SSHD[811]: accepted password for root from 10.0.0.7 port 52044".

Definition kernel_line : string := "kernel: eth0: link becomes ready".

Definition listening_line : string := "sshd[811]: Server listening on :: port 22.".

(** ** Notions for the properties of the extractors *)

(** Every byte of [s] is in the class [p]. *)
Fixpoint all_chars (p : ascii -> bool) (s : string) : bool :=
  match s with
  | EmptyString => true
  | String c s' => p c && all_chars p s'
  end.

Definition within (max : option nat) (n : nat) : Prop :=
  match max with Some m => (n <= m)%nat | None => True end.

(** [matches r w cap cap']: the text [w] is in the language of [r], and
    matching it turns the capture [cap] into [cap']. *)
Fixpoint matches (r : Regexp.re) (w : string) (cap cap' : option string) : Prop :=
  match r with
  | Regexp.Lit l => w = l /\ cap' = cap
  | Regexp.Rep p min max _ =>
      all_chars p w = true /\ (min <= String.length w)%nat /\
      within max (String.length w) /\ cap' = cap
  | Regexp.Cat r1 r2 =>
      exists w1 w2 c, w = w1 ++ w2 /\ matches r1 w1 cap c /\ matches r2 w2 c cap'
  | Regexp.Cap r1 => (exists c, matches r1 w cap c) /\ cap' = Some w
  end.

(** One to three decimal digits. *)
Definition octet_like (d : string) : Prop :=
  all_chars Regexp.digit d = true /\ (1 <= String.length d <= 3)%nat.

(** Four [octet_like] groups with dots between them. *)
Definition dotted_quad (q : string) : Prop :=
  exists a b c d,
    q = a ++ "." ++ b ++ "." ++ c ++ "." ++ d /\
    octet_like a /\ octet_like b /\ octet_like c /\ octet_like d.

(** [q] occurs in [line]. *)
Definition occurs_in (q line : string) : Prop :=
  exists pre post, line = pre ++ q ++ post.


(** ** Notions for the properties of the tracker and the loop *)

(** What main keeps true of the tracker between two calls: the mutex is
    free, every counter is between 0 and 6, a counter of 6 belongs to a
    blocked subnet, and the blacklist holds no [false] entry. *)
Definition well_formed (t : SubnetTracker) : Prop :=
  mu t = false /\
  (forall g, 0 <= attemptsOf t g <= 6) /\
  (forall g, blocked t g = false -> attemptsOf t g <= 5) /\
  (forall g v, blacklist t !! g = Some v -> v = true).

(** The window start stays or moves forward by at least a minute. *)
Definition window_moves_on (t t' : SubnetTracker) : Prop :=
  lastReset t' = lastReset t \/ lastReset t + Minute <= lastReset t'.

(** The lines of the raw records of a trace, in order. *)
Fixpoint raw_lines (tr : list event) : list string :=
  match tr with
  | [] => []
  | Log (RecRaw line) :: rest => line :: raw_lines rest
  | _ :: rest => raw_lines rest
  end.

(** The messages posted to the webhook, in order. *)
Fixpoint posted (tr : list event) : list message :=
  match tr with
  | [] => []
  | Post m :: rest => m :: posted rest
  | _ :: rest => posted rest
  end.

(** The messages of the "Event:" and "Block:" records, in order. *)
Fixpoint logged (tr : list event) : list message :=
  match tr with
  | [] => []
  | Log (RecEvent m) :: rest => m :: logged rest
  | Log (RecBlock m) :: rest => m :: logged rest
  | _ :: rest => logged rest
  end.

(** The messages written to standard output, in order. *)
Fixpoint printed (tr : list event) : list message :=
  match tr with
  | [] => []
  | Print m :: rest => m :: printed rest
  | _ :: rest => printed rest
  end.

(** A step that is no field access with the mutex free, the read of
    [lastReset] apart. *)
Definition guarded_or_lastReset_read (e : event) : bool :=
  match e with
  | Read LastReset false => true
  | _ => negb (unguarded e)
  end.

(** The mutex after the calls of a trace, from the state [held]; [None]
    when the trace locks a held mutex or unlocks a free one. *)
Fixpoint mutex_after (held : bool) (tr : list event) : option bool :=
  match tr with
  | [] => Some held
  | Lock :: rest => if held then None else mutex_after true rest
  | Unlock :: rest => if held then mutex_after false rest else None
  | _ :: rest => mutex_after held rest
  end.

(** A block message, wherever it is written, reports six attempts. *)
Definition reports_six (e : event) : bool :=
  match e with
  | Post (MsgBlock _ n) | Print (MsgBlockPlain _ n)
  | Log (RecBlock (MsgBlock _ n)) => n =? 6
  | _ => true
  end.


Definition is_print (e : event) : bool :=
  match e with Print _ => true | _ => false end.

(** An "Event:" or "Block:" record. *)
Definition is_alert_record (e : event) : bool :=
  match e with
  | Log (RecEvent _) | Log (RecBlock _) => true
  | _ => false
  end.

(** How many steps of the kind [first] are not yet followed by their step
    of the kind [second], after the trace and from [n] such steps; [None]
    when a [second] comes with no [first] waiting for it. *)
Fixpoint lag (first second : event -> bool) (n : nat) (tr : list event) : option nat :=
  match tr with
  | [] => Some n
  | e :: rest =>
      if first e then lag first second (S n) rest
      else if second e then
        match n with
        | O => None
        | S m => lag first second m rest
        end
      else lag first second n rest
  end.


(** The line printed for a message that is logged and posted: the same
    text, except that the block line has no backquotes. *)
Definition console (m : message) : message :=
  match m with
  | MsgBlock subnet count => MsgBlockPlain subnet count
  | _ => m
  end.

(** A trace in which the messages posted are the messages logged, the lines
    printed are their console forms, in the same order, and each message is
    printed before it is logged and logged before it is posted. *)
Definition announced_in_order (tr : list event) : Prop :=
  printed tr = map console (logged tr) /\ posted tr = logged tr /\
  lag is_print is_alert_record 0 tr = Some 0%nat /\
  lag is_alert_record is_post 0 tr = Some 0%nat.

(** A trace that keeps the lock discipline of the program: no field is
    touched with the mutex free except by reads of [lastReset], and the
    mutex calls alternate from a free mutex to a free mutex. *)
Definition disciplined (tr : list event) : Prop :=
  forallb guarded_or_lastReset_read tr = true /\ mutex_after false tr = Some false.

(** * Properties *)

(** ** The definitions on sample lines *)

Example extractIP_from :
  extractIP failed_line = "10.0.0.7".
Proof. vm_compute. reflexivity. Qed.

Example extractIP_before_port :
  extractIP "sshd[9]: Connection closed by 192.168.1.77 port 5022 [preauth]"
  = "192.168.1.77".
Proof. vm_compute. reflexivity. Qed.

Example extractIP_lazy_after_user :
  extractIP "sshd[9]: Invalid user admin 1234.5.6.7890" = "234.5.6.789".
Proof. vm_compute. reflexivity. Qed.

Example extractIP_none : extractIP listening_line = "".
Proof. vm_compute. reflexivity. Qed.

Example extractUsername_for : extractUsername failed_line = "root".
Proof. vm_compute. reflexivity. Qed.

Example extractUsername_user :
  extractUsername "sshd[9]: Failed password for invalid user admin from 10.0.0.1 port 22"
  = "admin".
Proof. vm_compute. reflexivity. Qed.

Example extractUsername_unknown :
  extractUsername "sshd[9]: Connection closed by 192.168.1.77 port 5022" = "unknown".
Proof. vm_compute. reflexivity. Qed.

Example getSubnet_letters : getSubnet "a.b.c.d" = "a.b.c.0/24".
Proof. reflexivity. Qed.

Example getSubnet_out_of_range : getSubnet "999.1.2.3" = "999.1.2.0/24".
Proof. reflexivity. Qed.

Example getSubnet_empty_components : getSubnet "..." = "...0/24".
Proof. reflexivity. Qed.

Example getSubnet_five_components : getSubnet "1.2.3.4.5" = "1.2.3.4.5".
Proof. reflexivity. Qed.

(** Six failed logins from one /24 inside a window, then a seventh: six
    activity alerts, one block alert after the sixth, and nothing for the
    seventh. *)
Example six_failures_then_a_seventh :
  let from n now :=
    mkInput ("sshd[811]: Failed password for root from 10.0.0." ++ n ++ " port 22 ssh2")
            None now in
  exists t' tr,
    mainLoop [from "1" 1; from "2" 2; from "3" 3; from "4" 4; from "5" 5;
              from "6" 6; from "7" 7] (NewTracker 0) = Some (tt, t', tr) /\
    t' = after_block /\
    posts tr =
      [Post (MsgActivity "10.0.0.1" "Unknown" subnet0);
       Post (MsgActivity "10.0.0.2" "Unknown" subnet0);
       Post (MsgActivity "10.0.0.3" "Unknown" subnet0);
       Post (MsgActivity "10.0.0.4" "Unknown" subnet0);
       Post (MsgActivity "10.0.0.5" "Unknown" subnet0);
       Post (MsgActivity "10.0.0.6" "Unknown" subnet0);
       Post (MsgBlock subnet0 6)].
Proof.
  eexists _, _. split; [vm_compute; reflexivity |].
  split; vm_compute; reflexivity.
Qed.

(** ** Runs of the tracker operations, written out *)

Lemma attemptsOf_insert m a b l g n :
  attemptsOf (mkTracker m (<[g := n]> a) b l) g = n.
Proof. unfold attemptsOf; simpl. by rewrite lookup_insert_eq. Qed.

Lemma blocked_insert m a b l g v :
  blocked (mkTracker m a (<[g := v]> b) l) g = v.
Proof. unfold blocked; simpl. by rewrite lookup_insert_eq. Qed.

Lemma blocked_insert_ne m a b l g g' v :
  g <> g' -> blocked (mkTracker m a (<[g := v]> b) l) g' = default false (b !! g').
Proof. intros Hne. unfold blocked; simpl. by rewrite lookup_insert_ne. Qed.

Lemma Sub_lt_Minute now last : Sub now last < Minute <-> now - last < Minute.
Proof.
  unfold Sub, maxDuration, minDuration, Minute.
  destruct (Z.ltb_spec (2 ^ 63 - 1) (now - last));
    [| destruct (Z.ltb_spec (now - last) (- 2 ^ 63))]; lia.
Qed.

Lemma wrap64_small z : - 2 ^ 63 <= z < 2 ^ 63 -> wrap64 z = z.
Proof. intros H. unfold wrap64. rewrite Z.mod_small; lia. Qed.

Ltac unfold_run :=
  unfold isBlocked, trackAttempt, cleanup, locked, bind, lock, unlock, ret, emit,
    readBlacklist, writeBlacklist, readAttempts, incrAttempts, resetAttempts,
    readLastReset, writeLastReset;
  cbn [mu attempts blacklist lastReset app].

Lemma isBlocked_run t g :
  mu t = false ->
  isBlocked g t = Some (blocked t g, t, [Lock; Read Blacklist true; Unlock]).
Proof.
  destruct t as [m a b l]; simpl; intros ->. unfold_run.
  change (blocked (mkTracker true a b l) g) with (blocked (mkTracker false a b l) g).
  reflexivity.
Qed.

Lemma trackAttempt_blocked t g :
  mu t = false -> blocked t g = true ->
  trackAttempt g t = Some (tt, t, tr_query).
Proof.
  destruct t as [m a b l]; simpl; intros -> Hb. unfold_run.
  change (blocked (mkTracker true a b l) g) with (blocked (mkTracker false a b l) g).
  rewrite Hb. reflexivity.
Qed.

Lemma trackAttempt_below t g :
  mu t = false -> blocked t g = false ->
  wrap64 (attemptsOf t g + 1) <= 5 ->
  trackAttempt g t =
    Some (tt,
          mkTracker false (<[g := wrap64 (attemptsOf t g + 1)]> (attempts t))
                    (blacklist t) (lastReset t),
          tr_count).
Proof.
  destruct t as [m a b l]; simpl; intros -> Hb Hn. unfold_run.
  change (blocked (mkTracker true a b l) g) with (blocked (mkTracker false a b l) g).
  rewrite Hb. cbn [mu attempts blacklist lastReset app].
  rewrite attemptsOf_insert.
  change (attemptsOf (mkTracker true a b l) g) with (attemptsOf (mkTracker false a b l) g).
  destruct (Z.ltb_spec 5 (wrap64 (attemptsOf (mkTracker false a b l) g + 1))); [lia |].
  reflexivity.
Qed.

Lemma trackAttempt_over t g :
  mu t = false -> blocked t g = false ->
  5 < wrap64 (attemptsOf t g + 1) ->
  trackAttempt g t =
    Some (tt,
          mkTracker false (<[g := wrap64 (attemptsOf t g + 1)]> (attempts t))
                    (<[g := true]> (blacklist t)) (lastReset t),
          tr_block g (wrap64 (attemptsOf t g + 1))).
Proof.
  destruct t as [m a b l]; simpl; intros -> Hb Hn. unfold_run.
  change (blocked (mkTracker true a b l) g) with (blocked (mkTracker false a b l) g).
  rewrite Hb. cbn [mu attempts blacklist lastReset app].
  rewrite attemptsOf_insert.
  change (attemptsOf (mkTracker true a b l) g) with (attemptsOf (mkTracker false a b l) g).
  destruct (Z.ltb_spec 5 (wrap64 (attemptsOf (mkTracker false a b l) g + 1))); [| lia].
  cbn [mu attempts blacklist lastReset app].
  rewrite attemptsOf_insert. reflexivity.
Qed.

Lemma cleanup_keep now t :
  Sub now (lastReset t) < Minute ->
  cleanup now t = Some (tt, t, [Read LastReset (mu t)]).
Proof.
  intros H. unfold_run.
  destruct (Z.ltb_spec (Sub now (lastReset t)) Minute); [reflexivity | lia].
Qed.

Lemma cleanup_reset now t :
  mu t = false -> Minute <= Sub now (lastReset t) ->
  cleanup now t = Some (tt, mkTracker false ∅ (blacklist t) now, tr_reset).
Proof.
  destruct t as [m a b l]; simpl; intros -> H. unfold_run.
  destruct (Z.ltb_spec (Sub now l) Minute); [lia | reflexivity].
Qed.

(** ** Runs of the loop body, written out *)

Lemma handleEvent_blocked line ip geo t :
  mu t = false -> blocked t (getSubnet ip) = true ->
  handleEvent line ip geo t =
    Some (tt, t, (tr_query ++ [Log (RecBlocked ip (getSubnet ip))])%list).
Proof.
  intros Hmu Hb. unfold handleEvent, bind.
  rewrite (isBlocked_run _ _ Hmu), Hb. reflexivity.
Qed.

Lemma handleEvent_accepted line ip geo t :
  mu t = false -> blocked t (getSubnet ip) = false ->
  Strings.Contains line "Accepted" = true ->
  handleEvent line ip geo t =
    Some (tt, t,
          (tr_query ++
           tr_alert (MsgSuccess ip (getGeoIP geo ip) (extractUsername line)))%list).
Proof.
  intros Hmu Hb Hacc. unfold handleEvent, bind.
  rewrite (isBlocked_run _ _ Hmu), Hb, Hacc. reflexivity.
Qed.

Lemma handleEvent_failed line ip geo t t' tr :
  mu t = false -> blocked t (getSubnet ip) = false ->
  Strings.Contains line "Accepted" = false ->
  trackAttempt (getSubnet ip) t = Some (tt, t', tr) ->
  handleEvent line ip geo t =
    Some (tt, t',
          (tr_query ++
           tr_alert (MsgActivity ip (getGeoIP geo ip) (getSubnet ip)) ++ tr)%list).
Proof.
  intros Hmu Hb Hacc Htr. unfold handleEvent, bind.
  rewrite (isBlocked_run _ _ Hmu), Hb, Hacc. cbn [negb emit].
  rewrite Htr. reflexivity.
Qed.

Lemma loopBody_skip i t :
  relevant (in_line i) = false ->
  loopBody i t = Some (tt, t, [Log (RecRaw (in_line i))]).
Proof.
  unfold relevant, loopBody, bind. intros H.
  destruct (Strings.Contains (Strings.ToLower (in_line i)) "ssh"); [| reflexivity].
  destruct (String.eqb (extractIP (in_line i)) ""); [reflexivity | discriminate].
Qed.

Lemma loopBody_relevant i t t1 tr1 t2 tr2 :
  relevant (in_line i) = true ->
  handleEvent (in_line i) (extractIP (in_line i)) (in_geo i) t = Some (tt, t1, tr1) ->
  cleanup (in_now i) t1 = Some (tt, t2, tr2) ->
  loopBody i t = Some (tt, t2, (Log (RecRaw (in_line i)) :: tr1 ++ tr2)%list).
Proof.
  unfold relevant, loopBody, bind. intros H Hh Hc.
  destruct (Strings.Contains (Strings.ToLower (in_line i)) "ssh"); [| discriminate].
  destruct (String.eqb (extractIP (in_line i)) ""); [discriminate |].
  cbn [negb emit]. rewrite Hh, Hc. reflexivity.
Qed.

(** ** What every step keeps *)

Lemma block_alerts_app g tr1 tr2 :
  block_alerts g (tr1 ++ tr2)%list = (block_alerts g tr1 + block_alerts g tr2)%nat.
Proof. unfold block_alerts. by rewrite List.filter_app, length_app. Qed.

Lemma sound_same t t' tr :
  mu t' = false -> blacklist t' = blacklist t ->
  (forall g, block_alerts g tr = 0%nat) ->
  sound_step t t' tr.
Proof.
  intros Hmu Hb Hz. unfold sound_step, blocked. rewrite Hb.
  split; [done |]. split; [done |].
  intros g. rewrite Hz. by destruct (default false (blacklist t !! g)).
Qed.

Lemma sound_trans t t1 t2 tr1 tr2 :
  sound_step t t1 tr1 -> sound_step t1 t2 tr2 ->
  sound_step t t2 (tr1 ++ tr2)%list.
Proof.
  intros (_ & Hk1 & Ha1) (Hmu & Hk2 & Ha2). split; [done |]. split.
  - intros g Hg. by apply Hk2, Hk1.
  - intros g. rewrite block_alerts_app, Ha1, Ha2.
    specialize (Hk1 g). specialize (Hk2 g).
    destruct (blocked t g), (blocked t1 g), (blocked t2 g); simpl in *;
      try reflexivity; try (by discriminate Hk1); by discriminate Hk2.
Qed.

Lemma sound_trackAttempt g t :
  mu t = false ->
  exists t' tr, trackAttempt g t = Some (tt, t', tr) /\ sound_step t t' tr.
Proof.
  intros Hmu. destruct (blocked t g) eqn:Hb.
  - eexists _, _. split; [by apply trackAttempt_blocked |].
    by apply sound_same.
  - destruct (Z_lt_le_dec 5 (wrap64 (attemptsOf t g + 1))) as [Hn | Hn].
    + eexists _, _. split; [by apply trackAttempt_over |].
      split; [done |]. split.
      * intros g' Hg'. unfold blocked in *; simpl.
        destruct (decide (g = g')) as [<- | Hne];
          [by rewrite lookup_insert_eq | by rewrite lookup_insert_ne].
      * intros g'. unfold block_alerts, tr_block; simpl.
        destruct (decide (g = g')) as [<- | Hne].
        -- rewrite String.eqb_refl, Hb, blocked_insert. reflexivity.
        -- rewrite (proj2 (String.eqb_neq g g') Hne).
           rewrite blocked_insert_ne by done. fold (blocked t g').
           by destruct (blocked t g').
    + eexists _, _. split; [by apply trackAttempt_below |].
      by apply sound_same.
Qed.

Lemma sound_cleanup now t :
  mu t = false ->
  exists t' tr, cleanup now t = Some (tt, t', tr) /\ sound_step t t' tr.
Proof.
  intros Hmu. destruct (Z_lt_le_dec (Sub now (lastReset t)) Minute) as [H | H].
  - eexists _, _. split; [by apply cleanup_keep |]. by apply sound_same.
  - eexists _, _. split; [by apply cleanup_reset |]. by apply sound_same.
Qed.

Lemma sound_runOp o t :
  mu t = false ->
  exists t' tr, runOp o t = Some (tt, t', tr) /\ sound_step t t' tr.
Proof.
  intros Hmu. destruct o as [g | g | now]; simpl.
  - exists t, (tr_query ++ [])%list. unfold bind.
    rewrite (isBlocked_run _ _ Hmu). split; [reflexivity |]. by apply sound_same.
  - by apply sound_trackAttempt.
  - by apply sound_cleanup.
Qed.

Lemma sound_runOps os t :
  mu t = false ->
  exists t' tr, runOps os t = Some (tt, t', tr) /\ sound_step t t' tr.
Proof.
  revert t. induction os as [| o os IH]; intros t Hmu; simpl.
  - exists t, []. split; [reflexivity |]. by apply sound_same.
  - destruct (sound_runOp o t Hmu) as (t1 & tr1 & Hr1 & Hs1).
    destruct (IH t1 (proj1 Hs1)) as (t2 & tr2 & Hr2 & Hs2).
    exists t2, (tr1 ++ tr2)%list. unfold bind. rewrite Hr1, Hr2.
    split; [reflexivity |]. by eapply sound_trans.
Qed.

Lemma sound_handleEvent line ip geo t :
  mu t = false ->
  exists t' tr, handleEvent line ip geo t = Some (tt, t', tr) /\ sound_step t t' tr.
Proof.
  intros Hmu. destruct (blocked t (getSubnet ip)) eqn:Hb.
  - eexists _, _. split; [by apply handleEvent_blocked |]. by apply sound_same.
  - destruct (Strings.Contains line "Accepted") eqn:Hacc.
    + eexists _, _. split; [by apply handleEvent_accepted |]. by apply sound_same.
    + destruct (sound_trackAttempt (getSubnet ip) t Hmu) as (t' & tr & Hr & Hs).
      eexists _, _. split; [by eapply handleEvent_failed |].
      rewrite app_assoc. eapply sound_trans; [| exact Hs]. by apply sound_same.
Qed.

Lemma sound_loopBody i t :
  mu t = false ->
  exists t' tr, loopBody i t = Some (tt, t', tr) /\ sound_step t t' tr.
Proof.
  intros Hmu. destruct (relevant (in_line i)) eqn:Hrel.
  - destruct (sound_handleEvent (in_line i) (extractIP (in_line i)) (in_geo i) t Hmu)
      as (t1 & tr1 & Hr1 & Hs1).
    destruct (sound_cleanup (in_now i) t1 (proj1 Hs1)) as (t2 & tr2 & Hr2 & Hs2).
    eexists _, _. split; [by eapply loopBody_relevant |].
    change (Log (RecRaw (in_line i)) :: tr1 ++ tr2)%list
      with ([Log (RecRaw (in_line i))] ++ (tr1 ++ tr2))%list.
    eapply sound_trans; [by apply sound_same |]. by eapply sound_trans.
  - eexists _, _. split; [by apply loopBody_skip |]. by apply sound_same.
Qed.

Lemma sound_mainLoop inputs t :
  mu t = false ->
  exists t' tr, mainLoop inputs t = Some (tt, t', tr) /\ sound_step t t' tr.
Proof.
  revert t. induction inputs as [| i rest IH]; intros t Hmu; simpl.
  - exists t, []. split; [reflexivity |]. by apply sound_same.
  - destruct (sound_loopBody i t Hmu) as (t1 & tr1 & Hr1 & Hs1).
    destruct (IH t1 (proj1 Hs1)) as (t2 & tr2 & Hr2 & Hs2).
    exists t2, (tr1 ++ tr2)%list. unfold bind. rewrite Hr1, Hr2.
    split; [reflexivity |]. by eapply sound_trans.
Qed.

(** ** The block transition *)

(** C1.  For a subnet that is not blocked, a call of [trackAttempt] blocks
    it and sends a block alert exactly when the counter after the increment
    is above 5; with a counter of at most 5 the call neither blocks nor
    alerts.  Once the subnet is blocked, no later call of any operation
    sends a block alert for it, so over every sequence of tracker calls, and
    over every run of the main loop, the number of block alerts for the
    subnet is one if the subnet ends up blocked and zero otherwise. *)
Theorem trackAttempt_blocks_exactly_once (t : SubnetTracker) (g : string) :
  mu t = false -> blocked t g = false ->
  (exists t' tr,
      trackAttempt g t = Some (tt, t', tr) /\
      attemptsOf t' g = wrap64 (attemptsOf t g + 1) /\
      blocked t' g = (5 <? attemptsOf t' g) /\
      block_alerts g tr = (if 5 <? attemptsOf t' g then 1%nat else 0%nat) /\
      (attemptsOf t' g <= 5 -> posts tr = []) /\
      (forall os, blocked t' g = true ->
         exists t'' tr', runOps os t' = Some (tt, t'', tr') /\
                         blocked t'' g = true /\ block_alerts g tr' = 0%nat)) /\
  (forall os, exists t' tr,
      runOps os t = Some (tt, t', tr) /\
      block_alerts g tr = (if blocked t' g then 1%nat else 0%nat)) /\
  (forall inputs, exists t' tr,
      mainLoop inputs t = Some (tt, t', tr) /\
      block_alerts g tr = (if blocked t' g then 1%nat else 0%nat)).
Proof.
  intros Hmu Hb. split; [| split].
  - assert (Hlater : forall t', mu t' = false -> forall os, blocked t' g = true ->
              exists t'' tr', runOps os t' = Some (tt, t'', tr') /\
                              blocked t'' g = true /\ block_alerts g tr' = 0%nat).
    { intros t' Hmu' os Hb'.
      destruct (sound_runOps os t' Hmu') as (t'' & tr' & Hr & _ & Hk & Ha).
      exists t'', tr'. split; [done |]. split; [by apply Hk |].
      by rewrite Ha, Hb'. }
    destruct (Z_lt_le_dec 5 (wrap64 (attemptsOf t g + 1))) as [Hn | Hn].
    + eexists _, _. split; [by apply trackAttempt_over |].
      split; [by rewrite attemptsOf_insert |].
      split; [by rewrite attemptsOf_insert, blocked_insert, (proj2 (Z.ltb_lt _ _) Hn) |].
      split.
      { rewrite attemptsOf_insert, (proj2 (Z.ltb_lt _ _) Hn).
        unfold block_alerts, tr_block; simpl. by rewrite String.eqb_refl. }
      split; [rewrite attemptsOf_insert; lia |]. by apply Hlater.
    + eexists _, _. split; [by apply trackAttempt_below |].
      split; [by rewrite attemptsOf_insert |].
      split; [rewrite attemptsOf_insert, (proj2 (Z.ltb_ge _ _) Hn); by destruct t |].
      split; [by rewrite attemptsOf_insert, (proj2 (Z.ltb_ge _ _) Hn) |].
      split; [done |]. by apply Hlater.
  - intros os. destruct (sound_runOps os t Hmu) as (t' & tr & Hr & _ & _ & Ha).
    exists t', tr. split; [done |]. by rewrite Ha, Hb.
  - intros inputs.
    destruct (sound_mainLoop inputs t Hmu) as (t' & tr & Hr & _ & _ & Ha).
    exists t', tr. split; [done |]. by rewrite Ha, Hb.
Qed.

(** C2.  For a blocked subnet [trackAttempt] returns with the tracker as it
    was, touching only the blacklist entry it reads, and the decision of the
    loop body for an address of that subnet consists of the [isBlocked] query
    and the one record "Blocked attempt from ...": nothing is printed or
    posted and no field is written.  In the whole turn of the loop the only
    other steps are the raw-line record in front and the closing [cleanup]. *)
Theorem blocked_subnet_is_suppressed (t : SubnetTracker) (g : string) :
  mu t = false -> blocked t g = true ->
  trackAttempt g t = Some (tt, t, [Lock; Read Blacklist true; Unlock]) /\
  (forall line ip geo, getSubnet ip = g ->
     handleEvent line ip geo t =
       Some (tt, t, [Lock; Read Blacklist true; Unlock; Log (RecBlocked ip g)])) /\
  (forall i, relevant (in_line i) = true ->
     getSubnet (extractIP (in_line i)) = g ->
     exists t' tr,
       cleanup (in_now i) t = Some (tt, t', tr) /\
       loopBody i t =
         Some (tt, t',
               ([Log (RecRaw (in_line i)); Lock; Read Blacklist true; Unlock;
                 Log (RecBlocked (extractIP (in_line i)) g)] ++ tr)%list)).
Proof.
  intros Hmu Hb. split; [by apply trackAttempt_blocked |].
  assert (Hh : forall line ip geo, getSubnet ip = g ->
     handleEvent line ip geo t =
       Some (tt, t, [Lock; Read Blacklist true; Unlock; Log (RecBlocked ip g)])).
  { intros line ip geo <-. by apply handleEvent_blocked. }
  split; [exact Hh |].
  intros i Hrel Hg.
  destruct (sound_cleanup (in_now i) t Hmu) as (t' & tr & Hc & _).
  exists t', tr. split; [done |].
  by rewrite (loopBody_relevant i t t _ t' tr Hrel (Hh _ _ _ Hg) Hc).
Qed.

(** C3.  From every tracker state with the mutex free (every state the
    program reaches between two calls), each of the three operations returns
    and leaves every blocked subnet blocked, and so does every run of the
    main loop.  When [cleanup] resets the window, every counter reads zero
    afterwards and the blacklist is the same map as before. *)
Theorem blocked_is_never_removed (t : SubnetTracker) :
  mu t = false ->
  (forall o, exists t' tr,
      runOp o t = Some (tt, t', tr) /\ mu t' = false /\
      forall g, blocked t g = true -> blocked t' g = true) /\
  (forall inputs, exists t' tr,
      mainLoop inputs t = Some (tt, t', tr) /\ mu t' = false /\
      forall g, blocked t g = true -> blocked t' g = true) /\
  (forall now, Minute <= Sub now (lastReset t) ->
     exists t' tr,
       cleanup now t = Some (tt, t', tr) /\
       (forall g, attemptsOf t' g = 0) /\
       blacklist t' = blacklist t /\
       forall g, blocked t' g = blocked t g).
Proof.
  intros Hmu. split; [| split].
  - intros o. destruct (sound_runOp o t Hmu) as (t' & tr & Hr & Hm & Hk & _).
    by exists t', tr.
  - intros inputs.
    destruct (sound_mainLoop inputs t Hmu) as (t' & tr & Hr & Hm & Hk & _).
    by exists t', tr.
  - intros now Hel. eexists _, _. split; [by apply cleanup_reset |].
    split; [| by split]. intros g. unfold attemptsOf; simpl.
    by rewrite lookup_empty.
Qed.

(** ** The window reset *)

(** C4, as amended: [cleanup] empties [attempts] and sets [lastReset] to
    [now] exactly when the time elapsed since [lastReset] is at least one
    minute; when it is less than one minute the tracker is left as it is,
    blacklist included.  The elapsed time is compared as it is: no
    saturation of the duration changes the outcome. *)
Theorem cleanup_resets_from_one_minute_on (now : Z) (t : SubnetTracker) :
  mu t = false ->
  (Minute <= Sub now (lastReset t) ->
     exists tr, cleanup now t = Some (tt, mkTracker false ∅ (blacklist t) now, tr)) /\
  (Sub now (lastReset t) < Minute ->
     exists tr, cleanup now t = Some (tt, t, tr)) /\
  (Sub now (lastReset t) < Minute <-> now - lastReset t < Minute).
Proof.
  intros Hmu. split; [| split].
  - intros H. eexists. by apply cleanup_reset.
  - intros H. eexists. by apply cleanup_keep.
  - apply Sub_lt_Minute.
Qed.

(** ** Which turns change a counter *)

Lemma handleEvent_attempts line ip geo t :
  mu t = false ->
  exists t1 tr1,
    handleEvent line ip geo t = Some (tt, t1, tr1) /\ mu t1 = false /\
    (attempts t1 = attempts t \/
     (Strings.Contains line "Accepted" = false /\
      attempts t1 =
        <[getSubnet ip := wrap64 (attemptsOf t (getSubnet ip) + 1)]> (attempts t))).
Proof.
  intros Hmu. destruct (blocked t (getSubnet ip)) eqn:Hb.
  - eexists _, _. split; [by apply handleEvent_blocked |]. by split; [| left].
  - destruct (Strings.Contains line "Accepted") eqn:Hacc.
    + eexists _, _. split; [by apply handleEvent_accepted |]. by split; [| left].
    + destruct (Z_lt_le_dec 5 (wrap64 (attemptsOf t (getSubnet ip) + 1))) as [Hn | Hn].
      * eexists _, _.
        split; [eapply handleEvent_failed; try done; by apply trackAttempt_over |].
        split; [done |]. by right.
      * eexists _, _.
        split; [eapply handleEvent_failed; try done; by apply trackAttempt_below |].
        split; [done |]. by right.
Qed.

Lemma cleanup_attempts now t :
  mu t = false ->
  exists t' tr,
    cleanup now t = Some (tt, t', tr) /\
    (attempts t' = attempts t \/ attempts t' = ∅).
Proof.
  intros Hmu. destruct (Z_lt_le_dec (Sub now (lastReset t)) Minute) as [H | H].
  - eexists _, _. split; [by apply cleanup_keep |]. by left.
  - eexists _, _. split; [by apply cleanup_reset |]. by right.
Qed.

(** C5, as amended: when the line contains "Accepted", the decision of the
    loop body leaves the whole tracker as it was, whatever the counter of
    the subnet; the success alert is printed, logged and posted when the
    subnet is not blocked, and for a blocked subnet only the record
    "Blocked attempt from ..." is written.  Over a whole turn on any line, a
    counter that ends different from before and not zero is the counter of
    the line's subnet, on a line without "Accepted", raised by one. *)
Theorem accepted_never_counts (t : SubnetTracker) :
  mu t = false ->
  (forall line ip geo, Strings.Contains line "Accepted" = true ->
     exists tr,
       handleEvent line ip geo t = Some (tt, t, tr) /\
       (blocked t (getSubnet ip) = false ->
          posts tr = [Post (MsgSuccess ip (getGeoIP geo ip) (extractUsername line))]) /\
       (blocked t (getSubnet ip) = true ->
          posts tr = [] /\ logs tr = [Log (RecBlocked ip (getSubnet ip))])) /\
  (forall i, exists t' tr,
     loopBody i t = Some (tt, t', tr) /\
     forall g, attemptsOf t' g <> attemptsOf t g -> attemptsOf t' g <> 0 ->
       Strings.Contains (in_line i) "Accepted" = false /\
       g = getSubnet (extractIP (in_line i)) /\
       attemptsOf t' g = wrap64 (attemptsOf t g + 1)).
Proof.
  intros Hmu. split.
  - intros line ip geo Hacc. destruct (blocked t (getSubnet ip)) eqn:Hb.
    + eexists. split; [by apply handleEvent_blocked |]. by split.
    + eexists. split; [by apply handleEvent_accepted |]. by split.
  - intros i. destruct (relevant (in_line i)) eqn:Hrel.
    + destruct (handleEvent_attempts (in_line i) (extractIP (in_line i)) (in_geo i) t Hmu)
        as (t1 & tr1 & Hh & Hmu1 & Ha1).
      destruct (cleanup_attempts (in_now i) t1 Hmu1) as (t2 & tr2 & Hc & Ha2).
      eexists _, _. split; [by eapply loopBody_relevant |].
      intros g Hne Hnz. unfold attemptsOf in *.
      destruct Ha2 as [Ha2 | Ha2]; rewrite Ha2 in *;
        [| by rewrite lookup_empty in Hnz].
      destruct Ha1 as [Ha1 | [Hacc Ha1]]; rewrite Ha1 in *; [done |].
      split; [done |].
      destruct (decide (getSubnet (extractIP (in_line i)) = g)) as [<- | Hg].
      * split; [done |]. by rewrite lookup_insert_eq.
      * by rewrite lookup_insert_ne in Hne.
    + eexists _, _. split; [by apply loopBody_skip |]. done.
Qed.

(** ** Where the loop body calls cleanup *)

Lemma cleanup_trace_head now t t' tr :
  cleanup now t = Some (tt, t', tr) ->
  exists rest, tr = Read LastReset (mu t) :: rest.
Proof.
  unfold cleanup, bind, readLastReset.
  destruct (Sub now (lastReset t) <? Minute).
  - intros [= _ <-]. by eexists.
  - destruct (locked _ t) as [[[[] t2] e2] |]; [| discriminate].
    intros [= _ <-]. by eexists.
Qed.

Lemma skipped_turn_has_no_cleanup i t :
  relevant (in_line i) = false -> ~ ends_with_cleanup i t.
Proof.
  intros Hrel (t1 & tr1 & t' & tr2 & Hl & Hc).
  rewrite (loopBody_skip i t Hrel) in Hl.
  destruct (cleanup_trace_head _ _ _ _ Hc) as (rest & ->).
  injection Hl as _ Htr.
  destruct tr1 as [| e1 [| e2 tr1]]; simpl in Htr; discriminate.
Qed.

(** C6, as amended: the loop body calls [cleanup] at the end of the turn
    for every line that contains "ssh" in any letter case and from which
    [extractIP] gets an address, whether the subnet is blocked or not.  For
    every other line the turn is over after the raw-line record: [cleanup]
    is not called and the tracker is left as it was. *)
Theorem cleanup_runs_on_relevant_lines (i : input) (t : SubnetTracker) :
  mu t = false ->
  (relevant (in_line i) = true ->
     exists t1 tr1 t' tr2,
       handleEvent (in_line i) (extractIP (in_line i)) (in_geo i) t = Some (tt, t1, tr1) /\
       cleanup (in_now i) t1 = Some (tt, t', tr2) /\
       loopBody i t = Some (tt, t', (Log (RecRaw (in_line i)) :: tr1 ++ tr2)%list) /\
       ends_with_cleanup i t) /\
  (relevant (in_line i) = false ->
     loopBody i t = Some (tt, t, [Log (RecRaw (in_line i))]) /\
     ~ ends_with_cleanup i t).
Proof.
  intros Hmu. split; intros Hrel.
  - destruct (sound_handleEvent (in_line i) (extractIP (in_line i)) (in_geo i) t Hmu)
      as (t1 & tr1 & Hh & Hmu1 & _).
    destruct (sound_cleanup (in_now i) t1 Hmu1) as (t2 & tr2 & Hc & _).
    pose proof (loopBody_relevant i t t1 tr1 t2 tr2 Hrel Hh Hc) as Hl.
    exists t1, tr1, t2, tr2. split; [done |]. split; [done |]. split; [done |].
    exists t1, (Log (RecRaw (in_line i)) :: tr1)%list, t2, tr2. by split.
  - split; [by apply loopBody_skip | by apply skipped_turn_has_no_cleanup].
Qed.

(** ** The mutex *)

(** C7, on the code: [isBlocked] and [trackAttempt] touch the tracker only
    inside one critical section, but the first step of [cleanup] reads
    [lastReset] with the mutex free, and when less than a minute has elapsed
    [cleanup] returns without ever taking the mutex. *)
Theorem cleanup_reads_lastReset_unlocked
    (a : gmap string Z) (b : gmap string bool) (last now : Z) (g : string) :
  let t := mkTracker false a b last in
  (exists t' rest,
      cleanup now t = Some (tt, t', Read LastReset false :: rest) /\
      all_guarded (Read LastReset false :: rest) = false) /\
  (exists r tr,
      isBlocked g t = Some (r, t, tr) /\
      all_guarded tr = true /\ one_critical_section tr = true) /\
  (exists t' tr,
      trackAttempt g t = Some (tt, t', tr) /\
      all_guarded tr = true /\ one_critical_section tr = true).
Proof.
  intros t. split; [| split].
  - destruct (Z_lt_le_dec (Sub now (lastReset t)) Minute) as [H | H].
    + exists t, []. split; [exact (cleanup_keep now t H) | done].
    + eexists _, _. split; [exact (cleanup_reset now t eq_refl H) | done].
  - eexists _, _. split; [by apply isBlocked_run |]. done.
  - destruct (blocked t g) eqn:Hb.
    + eexists _, _. split; [by apply trackAttempt_blocked |]. done.
    + destruct (Z_lt_le_dec 5 (wrap64 (attemptsOf t g + 1))) as [Hn | Hn].
      * eexists _, _. split; [by apply trackAttempt_over |]. done.
      * eexists _, _. split; [by apply trackAttempt_below |]. done.
Qed.

(** ** The success marker *)

(** C9, as amended: the marker is the exact substring "Accepted".  A line
    without it, a lower-case "accepted" included, that reaches the
    classification (it contains "ssh" in any letter case, an address is
    extracted and the subnet is not blocked) is announced as "SSH activity"
    and [trackAttempt] is called for its subnet, whose counter goes up by
    one; the turn then ends with [cleanup]. *)
Theorem accepted_marker_is_case_sensitive (i : input) (t : SubnetTracker) :
  mu t = false ->
  Strings.Contains (in_line i) "Accepted" = false ->
  relevant (in_line i) = true ->
  blocked t (getSubnet (extractIP (in_line i))) = false ->
  let ip := extractIP (in_line i) in
  let g := getSubnet ip in
  exists t1 tr1 t' tr2,
    trackAttempt g t = Some (tt, t1, tr1) /\
    handleEvent (in_line i) ip (in_geo i) t =
      Some (tt, t1,
            ([Lock; Read Blacklist true; Unlock] ++
             tr_alert (MsgActivity ip (getGeoIP (in_geo i) ip) g) ++ tr1)%list) /\
    attemptsOf t1 g = wrap64 (attemptsOf t g + 1) /\
    (- 2 ^ 63 <= attemptsOf t g < 2 ^ 63 - 1 -> attemptsOf t1 g = attemptsOf t g + 1) /\
    cleanup (in_now i) t1 = Some (tt, t', tr2) /\
    loopBody i t =
      Some (tt, t',
            (Log (RecRaw (in_line i)) ::
             ([Lock; Read Blacklist true; Unlock] ++
              tr_alert (MsgActivity ip (getGeoIP (in_geo i) ip) g) ++ tr1) ++ tr2)%list).
Proof.
  intros Hmu Hacc Hrel Hb ip g.
  assert (Htrack : exists t1 tr1,
             trackAttempt g t = Some (tt, t1, tr1) /\ mu t1 = false /\
             attemptsOf t1 g = wrap64 (attemptsOf t g + 1)).
  { destruct (Z_lt_le_dec 5 (wrap64 (attemptsOf t g + 1))) as [Hn | Hn].
    - eexists _, _. split; [by apply trackAttempt_over |].
      split; [done |]. by rewrite attemptsOf_insert.
    - eexists _, _. split; [by apply trackAttempt_below |].
      split; [done |]. by rewrite attemptsOf_insert. }
  destruct Htrack as (t1 & tr1 & Ht & Hmu1 & Hcnt).
  destruct (sound_cleanup (in_now i) t1 Hmu1) as (t2 & tr2 & Hc & _).
  pose proof (handleEvent_failed (in_line i) ip (in_geo i) t t1 tr1 Hmu Hb Hacc Ht) as Hh.
  exists t1, tr1, t2, tr2.
  split; [done |]. split; [done |]. split; [done |].
  split; [intros Hr; rewrite Hcnt; apply wrap64_small; lia |].
  split; [done |]. by apply (loopBody_relevant i t t1 _ t2 tr2 Hrel Hh Hc).
Qed.

(** ** getSubnet *)

Lemma append_assoc (a b c : string) : (a ++ b) ++ c = a ++ (b ++ c).
Proof.
  induction a as [| x a IH]; [reflexivity |].
  change (String x ((a ++ b) ++ c) = String x (a ++ (b ++ c))). by f_equal.
Qed.

Lemma Split_cons sep s : exists p ps, Strings.Split sep s = p :: ps.
Proof.
  destruct s as [| c s]; simpl; [by eexists _, _ |].
  destruct (Ascii.eqb c sep); [by eexists _, _ |].
  destruct (Strings.Split sep s); by eexists _, _.
Qed.

Lemma Split_free sep s :
  Strings.free_of sep s = true -> Strings.Split sep s = [s].
Proof.
  induction s as [| c s IH]; simpl; [done |].
  destruct (Ascii.eqb c sep); simpl; [done |].
  intros H. by rewrite (IH H).
Qed.

Lemma Split_app sep a b :
  Strings.free_of sep a = true ->
  Strings.Split sep (a ++ String sep b) = a :: Strings.Split sep b.
Proof.
  induction a as [| c a IH]; simpl.
  - intros _. by rewrite Ascii.eqb_refl.
  - destruct (Ascii.eqb c sep); simpl; [done |].
    intros H. by rewrite (IH H).
Qed.

Lemma Join_cons p q rest sep :
  Strings.Join (p :: q :: rest) sep = p ++ sep ++ Strings.Join (q :: rest) sep.
Proof. reflexivity. Qed.

Lemma Join_Split sep s :
  Strings.Join (Strings.Split sep s) (String sep EmptyString) = s.
Proof.
  induction s as [| c s IH]; [reflexivity |].
  destruct (Split_cons sep s) as (p & ps & Hs).
  cbn [Strings.Split]. rewrite Hs in *.
  destruct (Ascii.eqb_spec c sep) as [-> | Hne].
  - rewrite Join_cons, IH. reflexivity.
  - rewrite <- IH. destruct ps; reflexivity.
Qed.

Lemma Split_pieces_free sep s :
  Forall (fun p => Strings.free_of sep p = true) (Strings.Split sep s).
Proof.
  induction s as [| c s IH]; simpl; [by repeat constructor |].
  destruct (Ascii.eqb c sep) eqn:Hc; [by constructor |].
  destruct (Strings.Split sep s) as [| p ps]; [by repeat constructor; simpl; rewrite Hc |].
  inversion IH; subst. constructor; [| done]. simpl. by rewrite Hc.
Qed.

Lemma getSubnet_four ip a b c d :
  Strings.Split "." ip = [a; b; c; d] ->
  getSubnet ip = a ++ "." ++ b ++ "." ++ c ++ ".0/24".
Proof.
  intros H. unfold getSubnet. rewrite H. simpl.
  by rewrite !append_assoc.
Qed.

(** C8.  [getSubnet] is a function of the address alone.  When the address
    splits at the dots into exactly four components, the address is those
    four joined by dots and the result is the first three joined by dots
    followed by ".0/24", so two addresses that agree on the first three
    components get the same subnet; when the number of components is not
    four the address is returned as it is. *)
Theorem getSubnet_groups_by_first_three (ip : string) :
  (forall a b c d, Strings.Split "." ip = [a; b; c; d] ->
     ip = a ++ "." ++ b ++ "." ++ c ++ "." ++ d /\
     Forall (fun p => Strings.free_of "." p = true) [a; b; c; d] /\
     getSubnet ip = a ++ "." ++ b ++ "." ++ c ++ ".0/24" /\
     forall ip' d', Strings.Split "." ip' = [a; b; c; d'] ->
                    getSubnet ip' = getSubnet ip) /\
  (length (Strings.Split "." ip) <> 4%nat -> getSubnet ip = ip).
Proof.
  split.
  - intros a b c d H. split; [| split; [| split]].
    + rewrite <- (Join_Split "." ip) at 1. by rewrite H.
    + rewrite <- H. apply Split_pieces_free.
    + exact (getSubnet_four _ _ _ _ _ H).
    + intros ip' d' H'.
      by rewrite (getSubnet_four _ _ _ _ _ H), (getSubnet_four _ _ _ _ _ H').
  - intros H. unfold getSubnet.
    by destruct (Nat.eqb_spec (length (Strings.Split "." ip)) 4).
Qed.

(** C10.  The components are not inspected: whatever four dot-free strings
    are joined by dots, digits or not, empty or not, in the octet range or
    not, [getSubnet] answers with the first three and ".0/24". *)
Theorem getSubnet_does_not_validate (a b c d : string) :
  Strings.free_of "." a = true -> Strings.free_of "." b = true ->
  Strings.free_of "." c = true -> Strings.free_of "." d = true ->
  Strings.Split "." (a ++ "." ++ b ++ "." ++ c ++ "." ++ d) = [a; b; c; d] /\
  getSubnet (a ++ "." ++ b ++ "." ++ c ++ "." ++ d) =
    a ++ "." ++ b ++ "." ++ c ++ ".0/24".
Proof.
  intros Ha Hb Hc Hd.
  assert (Hs : Strings.Split "." (a ++ "." ++ b ++ "." ++ c ++ "." ++ d) = [a; b; c; d]).
  { change (a ++ "." ++ b ++ "." ++ c ++ "." ++ d)
      with (a ++ String "." (b ++ String "." (c ++ String "." d))).
    by rewrite !Split_app, Split_free. }
  split; [done | exact (getSubnet_four _ _ _ _ _ Hs)].
Qed.

(** ** Concrete runs *)

Lemma trackAttempt_blocks_exactly_once_witness :
  mu at_threshold = false /\ blocked at_threshold subnet0 = false /\
  exists t' tr,
    trackAttempt subnet0 at_threshold = Some (tt, t', tr) /\
    attemptsOf t' subnet0 = 6 /\ blocked t' subnet0 = true /\
    block_alerts subnet0 tr = 1%nat.
Proof.
  split; [reflexivity |]. split; [vm_compute; reflexivity |].
  destruct (trackAttempt_blocks_exactly_once at_threshold subnet0)
    as [(t' & tr & Hrun & Hcnt & Hblk & Hal & _) _];
    [reflexivity | vm_compute; reflexivity |].
  exists t', tr. rewrite Hcnt in Hblk, Hal.
  split; [exact Hrun |]. split; [exact Hcnt |]. split; [exact Hblk | exact Hal].
Defined.

Lemma blocked_subnet_is_suppressed_witness :
  mu after_block = false /\ blocked after_block subnet0 = true /\
  trackAttempt subnet0 after_block =
    Some (tt, after_block, [Lock; Read Blacklist true; Unlock]).
Proof.
  split; [reflexivity |]. split; [vm_compute; reflexivity |].
  apply (blocked_subnet_is_suppressed after_block subnet0);
    [reflexivity | vm_compute; reflexivity].
Defined.

Lemma blocked_is_never_removed_witness :
  mu after_block = false /\
  exists t' tr,
    runOp (OpCleanup (2 * Minute)) after_block = Some (tt, t', tr) /\
    mu t' = false /\
    forall g, blocked after_block g = true -> blocked t' g = true.
Proof.
  split; [reflexivity |].
  apply (blocked_is_never_removed after_block); reflexivity.
Defined.

(** The claim of C4 as the spec words it fails at the boundary: with the
    elapsed time exactly one minute, which does not exceed one minute,
    [cleanup] already clears the counters and moves [lastReset]. *)
Lemma cleanup_resets_at_exactly_one_minute :
  Sub Minute (lastReset at_threshold) = Minute /\
  ~ Minute < Sub Minute (lastReset at_threshold) /\
  attemptsOf at_threshold subnet0 = 5 /\
  exists t' tr,
    cleanup Minute at_threshold = Some (tt, t', tr) /\
    attemptsOf t' subnet0 = 0 /\ lastReset t' = Minute /\ t' <> at_threshold.
Proof.
  split; [reflexivity |]. split; [vm_compute; intros H; discriminate H |].
  split; [vm_compute; reflexivity |].
  eexists _, _. split; [vm_compute; reflexivity |].
  split; [reflexivity |]. split; [reflexivity |].
  intros H. discriminate H.
Qed.

Lemma cleanup_resets_from_one_minute_on_witness :
  mu at_threshold = false /\ Minute <= Sub Minute (lastReset at_threshold) /\
  exists tr,
    cleanup Minute at_threshold = Some (tt, mkTracker false ∅ ∅ Minute, tr).
Proof.
  split; [reflexivity |]. split; [vm_compute; intros H; discriminate H |].
  apply (cleanup_resets_from_one_minute_on Minute at_threshold);
    [reflexivity | vm_compute; intros H; discriminate H].
Defined.

(** The claim of C5 as the spec words it fails for a blocked subnet: the
    line carries "Accepted" and passes both filters, and the turn posts
    nothing; its only records are the raw line and the suppressed attempt. *)
Lemma accepted_line_of_blocked_subnet_gets_no_alert :
  Strings.Contains accepted_line "Accepted" = true /\
  relevant accepted_line = true /\
  getSubnet (extractIP accepted_line) = subnet0 /\
  blocked after_block subnet0 = true /\
  exists t' tr,
    loopBody (mkInput accepted_line None 1) after_block = Some (tt, t', tr) /\
    posts tr = [] /\
    logs tr = [Log (RecRaw accepted_line); Log (RecBlocked "10.0.0.7" subnet0)].
Proof.
  split; [vm_compute; reflexivity |]. split; [vm_compute; reflexivity |].
  split; [vm_compute; reflexivity |]. split; [vm_compute; reflexivity |].
  eexists _, _. split; [vm_compute; reflexivity |].
  split; vm_compute; reflexivity.
Qed.

Lemma accepted_never_counts_witness :
  mu at_threshold = false /\
  Strings.Contains accepted_line "Accepted" = true /\
  exists tr,
    handleEvent accepted_line "10.0.0.7" None at_threshold =
      Some (tt, at_threshold, tr) /\
    posts tr = [Post (MsgSuccess "10.0.0.7" "Unknown" "root")].
Proof.
  split; [reflexivity |]. split; [vm_compute; reflexivity |].
  destruct (proj1 (accepted_never_counts at_threshold eq_refl)
              accepted_line "10.0.0.7" None) as (tr & Hrun & Hpost & _);
    [vm_compute; reflexivity |].
  exists tr. split; [exact Hrun |].
  rewrite Hpost; [vm_compute; reflexivity | vm_compute; reflexivity].
Defined.

(** The claim of C6 as the spec words it fails on the two kinds of line it
    names: a line without "ssh" and a line without an address end the turn
    before [cleanup], so a window that is two minutes old stays as it is,
    where a call of [cleanup] would have cleared it. *)
Lemma irrelevant_lines_skip_cleanup :
  let stale := mkInput kernel_line None (2 * Minute) in
  let no_address := mkInput listening_line None (2 * Minute) in
  Strings.Contains (Strings.ToLower kernel_line) "ssh" = false /\
  Strings.Contains (Strings.ToLower listening_line) "ssh" = true /\
  extractIP listening_line = "" /\
  loopBody stale at_threshold = Some (tt, at_threshold, [Log (RecRaw kernel_line)]) /\
  loopBody no_address at_threshold =
    Some (tt, at_threshold, [Log (RecRaw listening_line)]) /\
  ~ ends_with_cleanup stale at_threshold /\
  ~ ends_with_cleanup no_address at_threshold /\
  cleanup (2 * Minute) at_threshold =
    Some (tt, mkTracker false ∅ ∅ (2 * Minute), tr_reset).
Proof.
  intros stale no_address.
  split; [vm_compute; reflexivity |]. split; [vm_compute; reflexivity |].
  split; [vm_compute; reflexivity |]. split; [vm_compute; reflexivity |].
  split; [vm_compute; reflexivity |].
  split; [apply skipped_turn_has_no_cleanup; vm_compute; reflexivity |].
  split; [apply skipped_turn_has_no_cleanup; vm_compute; reflexivity |].
  vm_compute; reflexivity.
Qed.

Lemma cleanup_runs_on_relevant_lines_witness :
  mu at_threshold = false /\ relevant failed_line = true /\
  ends_with_cleanup (mkInput failed_line None (2 * Minute)) at_threshold.
Proof.
  split; [reflexivity |]. split; [vm_compute; reflexivity |].
  destruct (proj1 (cleanup_runs_on_relevant_lines
                     (mkInput failed_line None (2 * Minute)) at_threshold eq_refl))
    as (t1 & tr1 & t' & tr2 & _ & _ & _ & Hend);
    [vm_compute; reflexivity | exact Hend].
Defined.

(** The claim of C9 as it is worded, for every line with only a lower-case
    "accepted", fails where the line is never classified: for a blocked
    subnet the turn leaves the counter as it was and announces nothing, and
    a line without "ssh" is dropped after its raw record. *)
Lemma lowercase_line_of_blocked_subnet_is_not_counted :
  let filtered := "login[7]: accepted password for root from 10.0.0.7 port 22" in
  Strings.Contains lowercase_line "Accepted" = false /\
  Strings.Contains lowercase_line "accepted" = true /\
  relevant lowercase_line = true /\
  getSubnet (extractIP lowercase_line) = subnet0 /\
  blocked after_block subnet0 = true /\
  attemptsOf after_block subnet0 = 6 /\
  (exists tr,
     loopBody (mkInput lowercase_line None 1) after_block = Some (tt, after_block, tr) /\
     posts tr = [] /\
     logs tr = [Log (RecRaw lowercase_line); Log (RecBlocked "10.0.0.7" subnet0)]) /\
  Strings.Contains filtered "Accepted" = false /\
  Strings.Contains filtered "accepted" = true /\
  relevant filtered = false /\
  loopBody (mkInput filtered None 1) at_threshold =
    Some (tt, at_threshold, [Log (RecRaw filtered)]).
Proof.
  intros filtered.
  do 6 (split; [vm_compute; reflexivity |]).
  split; [eexists; split; [vm_compute; reflexivity | split; vm_compute; reflexivity] |].
  do 3 (split; [vm_compute; reflexivity |]).
  vm_compute; reflexivity.
Qed.

Lemma accepted_marker_is_case_sensitive_witness :
  mu at_threshold = false /\
  Strings.Contains lowercase_line "Accepted" = false /\
  Strings.Contains lowercase_line "accepted" = true /\
  relevant lowercase_line = true /\
  blocked at_threshold (getSubnet (extractIP lowercase_line)) = false /\
  exists t1 tr1,
    trackAttempt subnet0 at_threshold = Some (tt, t1, tr1) /\
    attemptsOf t1 subnet0 = 6.
Proof.
  split; [reflexivity |]. split; [vm_compute; reflexivity |].
  split; [vm_compute; reflexivity |]. split; [vm_compute; reflexivity |].
  split; [vm_compute; reflexivity |].
  destruct (accepted_marker_is_case_sensitive
              (mkInput lowercase_line None 1) at_threshold)
    as (t1 & tr1 & _ & _ & Hrun & _ & Hcnt & _);
    [reflexivity | vm_compute; reflexivity | vm_compute; reflexivity
    | vm_compute; reflexivity |].
  assert (Hg : getSubnet (extractIP lowercase_line) = subnet0)
    by (vm_compute; reflexivity).
  cbn [in_line] in Hrun, Hcnt. rewrite Hg in Hrun, Hcnt.
  exists t1, tr1. split; [exact Hrun |]. rewrite Hcnt. vm_compute; reflexivity.
Defined.

Lemma getSubnet_groups_by_first_three_witness :
  Strings.Split "." "10.0.0.7" = ["10"; "0"; "0"; "7"] /\
  getSubnet "10.0.0.7" = "10.0.0.0/24" /\
  length (Strings.Split "." "localhost") <> 4%nat /\
  getSubnet "localhost" = "localhost".
Proof.
  split; [reflexivity |]. split.
  - apply (proj1 (getSubnet_groups_by_first_three "10.0.0.7") "10" "0" "0" "7").
    reflexivity.
  - split; [vm_compute; intros H; discriminate H |].
    apply (proj2 (getSubnet_groups_by_first_three "localhost")).
    vm_compute; intros H; discriminate H.
Defined.

Lemma getSubnet_does_not_validate_witness :
  Strings.free_of "." "999" = true /\ Strings.free_of "." "" = true /\
  Strings.free_of "." "x y" = true /\ Strings.free_of "." "3" = true /\
  getSubnet "999..x y.3" = "999..x y.0/24".
Proof.
  split; [reflexivity |]. split; [reflexivity |].
  split; [reflexivity |]. split; [reflexivity |].
  apply (getSubnet_does_not_validate "999" "" "x y" "3"); reflexivity.
Defined.

(** * Further properties of main.go *)

(** ** Subnet keys *)

Lemma Split_subnet_key a b c :
  Strings.free_of "." a = true -> Strings.free_of "." b = true ->
  Strings.free_of "." c = true ->
  Strings.Split "." (a ++ "." ++ b ++ "." ++ c ++ ".0/24") = [a; b; c; "0/24"].
Proof.
  intros Ha Hb Hc.
  change (a ++ "." ++ b ++ "." ++ c ++ ".0/24")
    with (a ++ String "." (b ++ String "." (c ++ String "." "0/24"))).
  by rewrite !Split_app, Split_free.
Qed.

Lemma Split_four_free ip a b c d :
  Strings.Split "." ip = [a; b; c; d] ->
  Strings.free_of "." a = true /\ Strings.free_of "." b = true /\
  Strings.free_of "." c = true /\ Strings.free_of "." d = true.
Proof.
  intros H. pose proof (Split_pieces_free "." ip) as Hf. rewrite H in Hf.
  inversion Hf as [| ? ? Ha Hf1]; subst. inversion Hf1 as [| ? ? Hb Hf2]; subst.
  inversion Hf2 as [| ? ? Hc Hf3]; subst. inversion Hf3 as [| ? ? Hd _]; subst.
  done.
Qed.

Lemma length_four {A} (l : list A) :
  length l = 4%nat -> exists a b c d, l = [a; b; c; d].
Proof.
  destruct l as [| a [| b [| c [| d [| e l]]]]]; simpl; intros H; try discriminate H.
  by exists a, b, c, d.
Qed.

(** X1.  A subnet key is a fixed point of [getSubnet]: grouping the result
    of a grouping changes nothing, whatever the address was. *)
Theorem getSubnet_idempotent (ip : string) :
  getSubnet (getSubnet ip) = getSubnet ip.
Proof.
  destruct (Nat.eq_dec (length (Strings.Split "." ip)) 4%nat) as [H4 | H4].
  - destruct (length_four _ H4) as (a & b & c & d & Hs).
    destruct (Split_four_free _ _ _ _ _ Hs) as (Ha & Hb & Hc & _).
    rewrite (getSubnet_four _ _ _ _ _ Hs).
    exact (getSubnet_four _ _ _ _ _ (Split_subnet_key a b c Ha Hb Hc)).
  - assert (Hid : getSubnet ip = ip).
    { unfold getSubnet. by destruct (Nat.eqb_spec (length (Strings.Split "." ip)) 4%nat). }
    by rewrite !Hid.
Qed.

(** X2.  Two addresses share a subnet key exactly when they are the same
    string or both split into four components with the same first three:
    different /24 prefixes never collide, and an address that is kept as
    its own key never collides with the key of a four-component address. *)
Theorem getSubnet_collisions (ip ip' : string) :
  getSubnet ip = getSubnet ip' <->
  ip = ip' \/
  exists a b c d d',
    Strings.Split "." ip = [a; b; c; d] /\ Strings.Split "." ip' = [a; b; c; d'].
Proof.
  assert (Hother : forall x, length (Strings.Split "." x) <> 4%nat -> getSubnet x = x).
  { intros x Hx. unfold getSubnet.
    by destruct (Nat.eqb_spec (length (Strings.Split "." x)) 4%nat). }
  assert (Hkey : forall x a b c d, Strings.Split "." x = [a; b; c; d] ->
            Strings.Split "." (getSubnet x) = [a; b; c; "0/24"]).
  { intros x a b c d Hs. destruct (Split_four_free _ _ _ _ _ Hs) as (Ha & Hb & Hc & _).
    rewrite (getSubnet_four _ _ _ _ _ Hs). by apply Split_subnet_key. }
  split.
  - intros Heq.
    destruct (Nat.eq_dec (length (Strings.Split "." ip)) 4%nat) as [H4 | H4];
      destruct (Nat.eq_dec (length (Strings.Split "." ip')) 4%nat) as [H4' | H4'].
    + destruct (length_four _ H4) as (a & b & c & d & Hs).
      destruct (length_four _ H4') as (a' & b' & c' & d' & Hs').
      pose proof (Hkey _ _ _ _ _ Hs) as Hk. rewrite Heq, (Hkey _ _ _ _ _ Hs') in Hk.
      injection Hk as -> -> ->. right. by exists a, b, c, d, d'.
    + destruct (length_four _ H4) as (a & b & c & d & Hs).
      pose proof (Hkey _ _ _ _ _ Hs) as Hk.
      rewrite Heq, (Hother _ H4') in Hk. by rewrite Hk in H4'.
    + destruct (length_four _ H4') as (a & b & c & d & Hs).
      pose proof (Hkey _ _ _ _ _ Hs) as Hk.
      rewrite <- Heq, (Hother _ H4) in Hk. by rewrite Hk in H4.
    + left. by rewrite <- (Hother _ H4), <- (Hother _ H4').
  - intros [-> | (a & b & c & d & d' & Hs & Hs')]; [done |].
    by rewrite (getSubnet_four _ _ _ _ _ Hs), (getSubnet_four _ _ _ _ _ Hs').
Qed.

(** ** What the extractors return *)

Lemma orelse_Some {A} (x y : option A) r :
  Regexp.orelse x y = Some r -> x = Some r \/ y = Some r.
Proof. destruct x; simpl; auto. Qed.

Lemma length_append (a b : string) :
  String.length (a ++ b) = (String.length a + String.length b)%nat.
Proof.
  induction a as [| x a IH]; [reflexivity |].
  change (S (String.length (a ++ b)) = S (String.length a + String.length b)).
  by rewrite IH.
Qed.

Lemma substring_prefix (w s : string) : substring 0 (String.length w) (w ++ s) = w.
Proof.
  induction w as [| x w IH]; [by destruct s |].
  change (String x (substring 0 (String.length w) (w ++ s)) = String x w).
  by rewrite IH.
Qed.

Lemma consumed_app (w s : string) : Regexp.consumed (w ++ s) s = w.
Proof.
  unfold Regexp.consumed. rewrite length_append.
  replace (String.length w + String.length s - String.length s)%nat
    with (String.length w) by lia.
  apply substring_prefix.
Qed.

Lemma HasPrefix_skip (l s : string) :
  Strings.HasPrefix s l = true -> s = l ++ Regexp.skip (String.length l) s.
Proof.
  revert s. induction l as [| b l IH]; intros s H; [by destruct s |].
  destruct s as [| a s]; [discriminate H |].
  cbn [Strings.HasPrefix] in H. apply andb_true_iff in H as [Hab Hl].
  apply Ascii.eqb_eq in Hab as ->.
  change (String b s = String b (l ++ Regexp.skip (String.length l) s)).
  by rewrite <- (IH s Hl).
Qed.

Lemma rep_sound {A} p greedy s : forall min max (k : string -> option A) res,
  Regexp.rep p greedy min max s k = Some res ->
  exists w s', s = w ++ s' /\ all_chars p w = true /\
               (min <= String.length w)%nat /\ within max (String.length w) /\
               k s' = Some res.
Proof.
  assert (Hstop : forall min max (k : string -> option A) res s0,
            (if Nat.eqb min 0 then k s0 else None) = Some res ->
            exists w s', s0 = w ++ s' /\ all_chars p w = true /\
                         (min <= String.length w)%nat /\ within max (String.length w) /\
                         k s' = Some res).
  { intros min max k res s0 H. destruct (Nat.eqb_spec min 0) as [-> | _]; [| discriminate H].
    exists EmptyString, s0. repeat split; try done. destruct max; simpl; lia. }
  induction s as [| c s IH]; intros min max k res H; cbn [Regexp.rep] in H.
  - destruct greedy; apply orelse_Some in H as [H | H];
      try discriminate H; by apply Hstop.
  - assert (Hmore :
      (if (p c && Regexp.allows max)%bool
       then Regexp.rep p greedy (Nat.pred min) (Nat.pred <$> max) s k else None) = Some res ->
      exists w s', String c s = w ++ s' /\ all_chars p w = true /\
                   (min <= String.length w)%nat /\ within max (String.length w) /\
                   k s' = Some res).
    { intros Hm. destruct (p c) eqn:Hpc; [| discriminate Hm].
      destruct (Regexp.allows max) eqn:Hal; [| discriminate Hm].
      destruct (IH _ _ _ _ Hm) as (w & s' & -> & Hw & Hmin & Hmax & Hk).
      exists (String c w), s'. split; [reflexivity |].
      split; [by cbn [all_chars]; rewrite Hpc |].
      split; [cbn [String.length]; lia |]. split; [| done].
      destruct max as [[| m] |]; simpl in *; try done. lia. }
    destruct greedy; apply orelse_Some in H as [H | H]; auto.
Qed.

Lemma exec_sound {A} r : forall s cap (k : string -> option string -> option A) res,
  Regexp.exec r s cap k = Some res ->
  exists w s' cap', s = w ++ s' /\ matches r w cap cap' /\ k s' cap' = Some res.
Proof.
  induction r as [l | p min max greedy | r1 IH1 r2 IH2 | r1 IH1];
    intros s cap k res H; cbn [Regexp.exec] in H.
  - destruct (Strings.HasPrefix s l) eqn:Hp; [| discriminate H].
    exists l, (Regexp.skip (String.length l) s), cap.
    split; [by apply HasPrefix_skip |]. by split.
  - destruct (rep_sound _ _ _ _ _ _ _ H) as (w & s' & -> & Hw & Hmin & Hmax & Hk).
    exists w, s', cap. split; [done |]. by split.
  - destruct (IH1 _ _ _ _ H) as (w1 & s1 & c1 & -> & Hm1 & H1).
    destruct (IH2 _ _ _ _ H1) as (w2 & s2 & c2 & -> & Hm2 & H2).
    exists (w1 ++ w2), s2, c2. split; [by rewrite append_assoc |].
    split; [| done]. by exists w1, w2, c1.
  - destruct (IH1 _ _ _ _ H) as (w & s' & c & -> & Hm & Hk).
    rewrite consumed_app in Hk.
    exists w, s', (Some w). split; [done |]. split; [| done]. split; [by exists c | done].
Qed.

Lemma exec_head_sound r s s' cap :
  Regexp.exec r s None (fun s1 c1 => Some (s1, c1)) = Some (s', cap) ->
  exists w, s = w ++ s' /\ matches r w None cap /\ Regexp.consumed s s' = w.
Proof.
  intros He. destruct (exec_sound _ _ _ _ _ He) as (w & s1 & c1 & -> & Hm & [= -> ->]).
  exists w. split; [done |]. split; [done |]. apply consumed_app.
Qed.

Lemma FindStringSubmatch_sound r s ms :
  Regexp.FindStringSubmatch r s = Some ms ->
  exists pre w post cap,
    s = pre ++ w ++ post /\ matches r w None cap /\ ms = [w; default EmptyString cap].
Proof.
  induction s as [| c s IH]; cbn [Regexp.FindStringSubmatch];
    destruct (Regexp.exec r _ None (fun s' cap => Some (s', cap))) as [[s' cap] |] eqn:He.
  - intros [= <-]. destruct (exec_head_sound _ _ _ _ He) as (w & Hs & Hm & ->).
    by exists EmptyString, w, s', cap.
  - discriminate.
  - intros [= <-]. destruct (exec_head_sound _ _ _ _ He) as (w & Hs & Hm & ->).
    by exists EmptyString, w, s', cap.
  - intros H. destruct (IH H) as (pre & w & post & cap & -> & Hm & ->).
    by exists (String c pre), w, post, cap.
Qed.

Lemma first_submatch_sound patterns line none :
  first_submatch patterns line none = none \/
  exists r pre w post cap,
    In r patterns /\ line = pre ++ w ++ post /\ matches r w None cap /\
    first_submatch patterns line none = default EmptyString cap.
Proof.
  induction patterns as [| r rest IH]; [by left |].
  cbn [first_submatch].
  destruct (Regexp.FindStringSubmatch r line) as [ms |] eqn:Hf.
  - destruct (FindStringSubmatch_sound _ _ _ Hf) as (pre & w & post & cap & Hl & Hm & ->).
    right. exists r, pre, w, post, cap. split; [by left |]. done.
  - destruct IH as [IH | (r' & pre & w & post & cap & Hin & Hl & Hm & Hr)]; [by left |].
    right. exists r', pre, w, post, cap. split; [by right |]. done.
Qed.

Lemma append_nil_r (a : string) : a ++ "" = a.
Proof.
  induction a as [| x a IH]; [reflexivity |].
  change (String x (a ++ "") = String x a). by rewrite IH.
Qed.

Lemma occurs_in_refl q : occurs_in q q.
Proof. exists EmptyString, EmptyString. by rewrite append_nil_r. Qed.

Lemma occurs_in_app_l q u w : occurs_in q w -> occurs_in q (u ++ w).
Proof.
  intros (pre & post & ->). exists (u ++ pre), post. by rewrite append_assoc.
Qed.

Lemma occurs_in_app_r q u w : occurs_in q w -> occurs_in q (w ++ u).
Proof.
  intros (pre & post & ->). exists pre, (post ++ u). by rewrite !append_assoc.
Qed.

Lemma matches_ipv4 w cap cap' :
  matches ipv4_group w cap cap' -> dotted_quad w /\ cap' = Some w.
Proof.
  unfold ipv4_group, Regexp.upto3. cbn [matches Regexp.seq within].
  intros [(c0 & a & w1 & c1 & -> & (Ha & Ha1 & Ha3 & _) &
           x1 & w2 & c2 & -> & (-> & _) &
           b & w3 & c3 & -> & (Hb & Hb1 & Hb3 & _) &
           x2 & w4 & c4 & -> & (-> & _) &
           c & w5 & c5 & -> & (Hc & Hc1 & Hc3 & _) &
           x3 & d & c6 & -> & (-> & _) & (Hd & Hd1 & Hd3 & _)) ->].
  split; [| done]. exists a, b, c, d. by repeat split.
Qed.

Lemma ip_pattern_capture r w cap :
  In r ip_patterns -> matches r w None cap ->
  exists q, cap = Some q /\ dotted_quad q /\ occurs_in q w.
Proof.
  unfold ip_patterns. intros [<- | [<- | [<- | [<- | []]]]];
    cbn [matches Regexp.seq Regexp.plus Regexp.lazy_star].
  - intros (w1 & w' & c1 & -> & _ & w2 & q & c2 & -> & _ & Hq).
    apply matches_ipv4 in Hq as [Hq ->]. exists q. split; [done |]. split; [done |].
    apply occurs_in_app_l, occurs_in_app_l, occurs_in_refl.
  - intros (q & w' & c1 & -> & Hq & w2 & w3 & c2 & -> & (_ & _ & _ & ->) & _ & ->).
    apply matches_ipv4 in Hq as [Hq ->]. exists q. split; [done |]. split; [done |].
    apply occurs_in_app_r, occurs_in_refl.
  - intros (w1 & w' & c1 & -> & _ & w2 & q & c2 & -> & _ & Hq).
    apply matches_ipv4 in Hq as [Hq ->]. exists q. split; [done |]. split; [done |].
    apply occurs_in_app_l, occurs_in_app_l, occurs_in_refl.
  - intros (w1 & w' & c1 & -> & _ & w2 & q & c2 & -> & _ & Hq).
    apply matches_ipv4 in Hq as [Hq ->]. exists q. split; [done |]. split; [done |].
    apply occurs_in_app_l, occurs_in_app_l, occurs_in_refl.
Qed.

Lemma occurs_in_line q pre w post : occurs_in q w -> occurs_in q (pre ++ w ++ post).
Proof. intros H. by apply occurs_in_app_l, occurs_in_app_r. Qed.

(** X3.  [extractIP] returns the empty string or a text of the line made
    of four groups of one to three digits with dots between them; it never
    returns anything that is not in the line. *)
Theorem extractIP_is_empty_or_dotted_quad (line : string) :
  extractIP line = "" \/
  (dotted_quad (extractIP line) /\ occurs_in (extractIP line) line).
Proof.
  unfold extractIP.
  destruct (first_submatch_sound ip_patterns line "")
    as [H | (r & pre & w & post & cap & Hin & -> & Hm & ->)]; [by left |].
  destruct (ip_pattern_capture _ _ _ Hin Hm) as (q & -> & Hq & Hocc).
  right. split; [done |]. by apply occurs_in_line.
Qed.

Lemma digits_free_of_dot d :
  all_chars Regexp.digit d = true -> Strings.free_of "." d = true.
Proof.
  induction d as [| x d IH]; [done |]. cbn [all_chars Strings.free_of].
  intros [Hx Hd]%andb_true_iff. rewrite (IH Hd), andb_true_r.
  destruct (Ascii.eqb_spec x "."%char) as [-> | _]; [discriminate Hx | done].
Qed.

Lemma dotted_quad_nonempty q : dotted_quad q -> q <> "".
Proof.
  intros (a & b & c & d & -> & (_ & Ha) & _). destruct a; [simpl in Ha; lia | discriminate].
Qed.

Lemma extractIP_dotted_quad line :
  extractIP line <> "" -> dotted_quad (extractIP line).
Proof.
  unfold extractIP. intros Hne.
  destruct (first_submatch_sound ip_patterns line "")
    as [H | (r & pre & w & post & cap & Hin & _ & Hm & Hr)]; [done |].
  destruct (ip_pattern_capture _ _ _ Hin Hm) as (q & -> & Hq & _).
  by rewrite Hr.
Qed.

(** X4.  Whenever [extractIP] finds an address, [getSubnet] splits it into
    exactly four components and answers with the first three and ".0/24":
    on the addresses main passes to it, [getSubnet] never takes the branch
    that returns the address itself, and the key differs from the address. *)
Theorem extracted_address_is_grouped (line : string) :
  extractIP line <> "" ->
  exists a b c d,
    Strings.Split "." (extractIP line) = [a; b; c; d] /\
    octet_like a /\ octet_like b /\ octet_like c /\ octet_like d /\
    getSubnet (extractIP line) = a ++ "." ++ b ++ "." ++ c ++ ".0/24" /\
    getSubnet (extractIP line) <> extractIP line.
Proof.
  intros Hne. destruct (extractIP_dotted_quad line Hne)
    as (a & b & c & d & Heq & Ha & Hb & Hc & Hd).
  assert (Hs : Strings.Split "." (extractIP line) = [a; b; c; d]).
  { rewrite Heq.
    change (a ++ "." ++ b ++ "." ++ c ++ "." ++ d)
      with (a ++ String "." (b ++ String "." (c ++ String "." d))).
    rewrite !Split_app, Split_free; try done; apply digits_free_of_dot;
      by (apply Ha || apply Hb || apply Hc || apply Hd). }
  exists a, b, c, d. split; [done |]. do 4 (split; [done |]).
  split; [exact (getSubnet_four _ _ _ _ _ Hs) |].
  rewrite (getSubnet_four _ _ _ _ _ Hs). intros Hsame.
  pose proof (Split_subnet_key a b c (digits_free_of_dot _ (proj1 Ha))
                (digits_free_of_dot _ (proj1 Hb)) (digits_free_of_dot _ (proj1 Hc))) as Hk.
  rewrite Hsame, Hs in Hk. injection Hk as ->. by destruct Hd as [Hd _].
Qed.

Lemma extracted_address_is_grouped_witness :
  extractIP failed_line <> "" /\
  getSubnet (extractIP failed_line) <> extractIP failed_line.
Proof.
  split; [vm_compute; intros H; discriminate H |].
  destruct (extracted_address_is_grouped failed_line)
    as (a & b & c & d & _ & _ & _ & _ & _ & _ & Hne);
    [vm_compute; intros H; discriminate H | exact Hne].
Defined.

Lemma user_pattern_capture r w cap :
  In r user_patterns -> matches r w None cap ->
  exists u, cap = Some u /\ all_chars Regexp.word u = true /\
            (1 <= String.length u)%nat /\ occurs_in u w.
Proof.
  unfold user_patterns, word_group. intros [<- | [<- | [<- | []]]];
    cbn [matches Regexp.seq Regexp.plus].
  - intros (w1 & w' & c1 & -> & _ & w2 & w3 & c2 & -> & _ &
            w4 & w5 & c3 & -> & _ & w6 & u & c4 & -> & _ & (c5 & Hu & Hn & _) & ->).
    exists u. do 3 (split; [done |]).
    apply occurs_in_app_l, occurs_in_app_l, occurs_in_app_l, occurs_in_app_l, occurs_in_refl.
  - intros (w1 & w' & c1 & -> & _ & w2 & u & c2 & -> & _ & (c5 & Hu & Hn & _) & ->).
    exists u. do 3 (split; [done |]).
    apply occurs_in_app_l, occurs_in_app_l, occurs_in_refl.
  - intros (w1 & w' & c1 & -> & _ & w2 & u & c2 & -> & _ & (c5 & Hu & Hn & _) & ->).
    exists u. do 3 (split; [done |]).
    apply occurs_in_app_l, occurs_in_app_l, occurs_in_refl.
Qed.

(** X5.  [extractUsername] never returns the empty string: the result is
    made of letters, digits and underscores only, and it is either the
    default "unknown" or a word of the line. *)
Theorem extractUsername_is_a_word (line : string) :
  extractUsername line <> "" /\
  all_chars Regexp.word (extractUsername line) = true /\
  (extractUsername line = "unknown" \/ occurs_in (extractUsername line) line).
Proof.
  unfold extractUsername.
  destruct (first_submatch_sound user_patterns line "unknown")
    as [-> | (r & pre & w & post & cap & Hin & -> & Hm & ->)].
  - split; [done |]. split; [reflexivity | by left].
  - destruct (user_pattern_capture _ _ _ Hin Hm) as (u & -> & Hu & Hn & Hocc).
    cbn [default]. split; [destruct u; [simpl in Hn; lia | done] |].
    split; [done |]. right. by apply occurs_in_line.
Qed.

(** ** Lifting a step property to the loop

    An invariant of the tracker, a relation between the tracker before and
    after, and a property of traces that [trackAttempt] and [cleanup] keep
    are kept by the decision of the loop body, by a whole turn and by the
    loop. *)

Section Lift.

Variable Inv : SubnetTracker -> Prop.
Variable Rel : SubnetTracker -> SubnetTracker -> Prop.
Variable Good : list event -> Prop.

Hypothesis Inv_free : forall t, Inv t -> mu t = false.
Hypothesis Rel_refl : forall t, Rel t t.
Hypothesis Rel_trans : forall t1 t2 t3, Rel t1 t2 -> Rel t2 t3 -> Rel t1 t3.
Hypothesis Good_nil : Good [].
Hypothesis Good_app : forall tr1 tr2, Good tr1 -> Good tr2 -> Good (tr1 ++ tr2)%list.
Hypothesis Good_query : Good tr_query.
Hypothesis Good_success : forall ip loc user, Good (tr_alert (MsgSuccess ip loc user)).
Hypothesis Good_activity : forall ip loc g, Good (tr_alert (MsgActivity ip loc g)).
Hypothesis Good_blocked : forall ip g, Good [Log (RecBlocked ip g)].
Hypothesis step_trackAttempt : forall g t, Inv t ->
  exists t' tr, trackAttempt g t = Some (tt, t', tr) /\ Inv t' /\ Rel t t' /\ Good tr.
Hypothesis step_cleanup : forall now t, Inv t ->
  exists t' tr, cleanup now t = Some (tt, t', tr) /\ Inv t' /\ Rel t t' /\ Good tr.

Lemma lift_handleEvent line ip geo t :
  Inv t ->
  exists t' tr, handleEvent line ip geo t = Some (tt, t', tr) /\
                Inv t' /\ Rel t t' /\ Good tr.
Proof.
  intros HI. pose proof (Inv_free t HI) as Hmu.
  destruct (blocked t (getSubnet ip)) eqn:Hb.
  - eexists _, _. split; [by apply handleEvent_blocked |].
    split; [done |]. split; [done |]. by apply Good_app.
  - destruct (Strings.Contains line "Accepted") eqn:Hacc.
    + eexists _, _. split; [by apply handleEvent_accepted |].
      split; [done |]. split; [done |]. by apply Good_app.
    + destruct (step_trackAttempt (getSubnet ip) t HI) as (t' & tr & Hr & HI' & HR & HG).
      eexists _, _. split; [by eapply handleEvent_failed |].
      split; [done |]. split; [done |]. apply Good_app; [done |]. by apply Good_app.
Qed.

Lemma lift_turn i t :
  Inv t ->
  exists t' tr, loopBody i t = Some (tt, t', (Log (RecRaw (in_line i)) :: tr)%list) /\
                Inv t' /\ Rel t t' /\ Good tr.
Proof.
  intros HI. destruct (relevant (in_line i)) eqn:Hrel.
  - destruct (lift_handleEvent (in_line i) (extractIP (in_line i)) (in_geo i) t HI)
      as (t1 & tr1 & Hr1 & HI1 & HR1 & HG1).
    destruct (step_cleanup (in_now i) t1 HI1) as (t2 & tr2 & Hr2 & HI2 & HR2 & HG2).
    exists t2, (tr1 ++ tr2)%list. split; [by eapply loopBody_relevant |].
    split; [done |]. split; [by eapply Rel_trans |]. by apply Good_app.
  - exists t, []. split; [by apply loopBody_skip |]. done.
Qed.

Hypothesis Good_raw : forall line, Good [Log (RecRaw line)].

Lemma lift_mainLoop inputs t :
  Inv t ->
  exists t' tr, mainLoop inputs t = Some (tt, t', tr) /\ Inv t' /\ Rel t t' /\ Good tr.
Proof.
  revert t. induction inputs as [| i rest IH]; intros t HI.
  - exists t, []. by split.
  - destruct (lift_turn i t HI) as (t1 & tr1 & Hr1 & HI1 & HR1 & HG1).
    destruct (IH t1 HI1) as (t2 & tr2 & Hr2 & HI2 & HR2 & HG2).
    eexists _, _. cbn [mainLoop]. unfold bind. rewrite Hr1, Hr2.
    split; [reflexivity |]. split; [done |]. split; [by eapply Rel_trans |].
    apply Good_app; [| done].
    change (Log (RecRaw (in_line i)) :: tr1)%list
      with ([Log (RecRaw (in_line i))] ++ tr1)%list. by apply Good_app.
Qed.

End Lift.

(** The single runs of the two operations that write the tracker. *)
Lemma trackAttempt_cases g t :
  mu t = false ->
  exists t' tr,
    trackAttempt g t = Some (tt, t', tr) /\ mu t' = false /\
    lastReset t' = lastReset t /\
    (tr = tr_query \/ tr = tr_count \/ exists n, tr = tr_block g n).
Proof.
  intros Hmu. destruct (blocked t g) eqn:Hb.
  - eexists _, _. split; [by apply trackAttempt_blocked |]. by repeat split; [| left].
  - destruct (Z_lt_le_dec 5 (wrap64 (attemptsOf t g + 1))) as [Hn | Hn].
    + eexists _, _. split; [by apply trackAttempt_over |].
      repeat split. right; right. by eexists.
    + eexists _, _. split; [by apply trackAttempt_below |].
      repeat split. by right; left.
Qed.

Lemma cleanup_cases now t :
  mu t = false ->
  exists t' tr,
    cleanup now t = Some (tt, t', tr) /\ mu t' = false /\
    window_moves_on t t' /\
    (tr = [Read LastReset false] \/ tr = tr_reset).
Proof.
  intros Hmu. destruct (Z_lt_le_dec (Sub now (lastReset t)) Minute) as [H | H].
  - eexists _, _. split; [by apply cleanup_keep |]. rewrite Hmu.
    split; [done |]. split; [by left | by left].
  - eexists _, _. split; [by apply cleanup_reset |].
    split; [done |]. split; [| by right]. right. simpl.
    pose proof (Sub_lt_Minute now (lastReset t)). lia.
Qed.

(** ** Reading traces piece by piece *)

Lemma raw_lines_app tr1 tr2 :
  raw_lines (tr1 ++ tr2)%list = (raw_lines tr1 ++ raw_lines tr2)%list.
Proof.
  induction tr1 as [| e tr1 IH]; [done |].
  destruct e as [| | | | | [] |]; simpl; by rewrite ?IH.
Qed.

Lemma posted_app tr1 tr2 : posted (tr1 ++ tr2)%list = (posted tr1 ++ posted tr2)%list.
Proof.
  induction tr1 as [| e tr1 IH]; [done |]. destruct e; simpl; by rewrite ?IH.
Qed.

Lemma logged_app tr1 tr2 : logged (tr1 ++ tr2)%list = (logged tr1 ++ logged tr2)%list.
Proof.
  induction tr1 as [| e tr1 IH]; [done |].
  destruct e as [| | | | | [] |]; simpl; by rewrite ?IH.
Qed.

Lemma printed_app tr1 tr2 :
  printed (tr1 ++ tr2)%list = (printed tr1 ++ printed tr2)%list.
Proof.
  induction tr1 as [| e tr1 IH]; [done |]. destruct e; simpl; by rewrite ?IH.
Qed.

Lemma mutex_after_app tr1 tr2 held held' :
  mutex_after held tr1 = Some held' ->
  mutex_after held (tr1 ++ tr2)%list = mutex_after held' tr2.
Proof.
  revert held. induction tr1 as [| e tr1 IH]; intros held H; [by injection H as -> |].
  destruct e; simpl in *; try (by apply IH); destruct held; try discriminate H; by apply IH.
Qed.

Lemma lag_app first second tr1 tr2 n m :
  lag first second n tr1 = Some m ->
  lag first second n (tr1 ++ tr2)%list = lag first second m tr2.
Proof.
  revert n. induction tr1 as [| e tr1 IH]; intros n H; [by injection H as -> |].
  simpl in *. destruct (first e); [by apply IH |].
  destruct (second e); [| by apply IH].
  destruct n; [discriminate H | by apply IH].
Qed.

(** ** The window start *)

(** X6.  Over every run of the loop, whatever the clock readings are, even
    readings that go back in time, [lastReset] either keeps its value or
    ends at least one minute later than it was. *)
Theorem window_start_never_goes_back (t : SubnetTracker) (inputs : list input) :
  mu t = false ->
  exists t' tr,
    mainLoop inputs t = Some (tt, t', tr) /\
    window_moves_on t t' /\ lastReset t <= lastReset t'.
Proof.
  intros Hmu.
  destruct (lift_mainLoop (fun t => mu t = false) window_moves_on (fun _ => True))
    with (inputs := inputs) (t := t) as (t' & tr & Hr & _ & HR & _); try done.
  - by left.
  - unfold window_moves_on, Minute. intros t1 t2 t3 [-> | H12] [-> | H23]; [by left | | |];
      right; lia.
  - intros g t0 H0. destruct (trackAttempt_cases g t0 H0) as (t1 & tr1 & Hr1 & Hm1 & Hl & _).
    exists t1, tr1. split; [done |]. split; [done |]. split; [by left | done].
  - intros now t0 H0. destruct (cleanup_cases now t0 H0) as (t1 & tr1 & Hr1 & Hm1 & Hw & _).
    by exists t1, tr1.
  - exists t', tr. split; [done |]. split; [done |].
    unfold window_moves_on, Minute in HR. lia.
Qed.

Lemma window_start_never_goes_back_witness :
  mu at_threshold = false /\
  exists t' tr,
    mainLoop [mkInput failed_line None (3 * Minute); mkInput failed_line None 5]
             at_threshold = Some (tt, t', tr) /\
    lastReset at_threshold <= lastReset t'.
Proof.
  split; [reflexivity |].
  destruct (window_start_never_goes_back at_threshold
              [mkInput failed_line None (3 * Minute); mkInput failed_line None 5])
    as (t' & tr & Hr & _ & Hle); [reflexivity |].
  exists t', tr. split; [exact Hr | exact Hle].
Defined.

(** ** The tracker main builds *)

Lemma well_formed_NewTracker now : well_formed (NewTracker now).
Proof.
  split; [done |]. unfold attemptsOf, blocked; simpl.
  split; [intros g; rewrite lookup_empty; simpl; lia |].
  split; [intros g _; rewrite lookup_empty; simpl; lia |].
  intros g v H. by rewrite lookup_empty in H.
Qed.

Lemma well_formed_trackAttempt g t :
  well_formed t ->
  exists t' tr,
    trackAttempt g t = Some (tt, t', tr) /\ well_formed t' /\
    forallb reports_six tr = true.
Proof.
  intros (Hmu & Hrange & Hfree & Htrue). destruct (blocked t g) eqn:Hb.
  - eexists _, _. split; [by apply trackAttempt_blocked |]. by split.
  - pose proof (Hrange g) as Hg. pose proof (Hfree g Hb) as Hg5.
    assert (Hw : wrap64 (attemptsOf t g + 1) = attemptsOf t g + 1)
      by (apply wrap64_small; lia).
    destruct (Z_lt_le_dec 5 (attemptsOf t g + 1)) as [Hn | Hn].
    + eexists _, _. split; [apply trackAttempt_over; try done; lia |].
      rewrite Hw. replace (attemptsOf t g + 1) with 6 by lia.
      split; [| done]. split; [done |]. unfold attemptsOf, blocked in *; simpl.
      split; [| split].
      * intros g'. destruct (decide (g = g')) as [<- | Hne];
          [rewrite lookup_insert_eq; simpl; lia | by rewrite lookup_insert_ne].
      * intros g'. destruct (decide (g = g')) as [<- | Hne];
          [by rewrite lookup_insert_eq | rewrite !lookup_insert_ne by done; apply Hfree].
      * intros g' v. destruct (decide (g = g')) as [<- | Hne];
          [rewrite lookup_insert_eq; by intros [= <-]
          | rewrite lookup_insert_ne by done; apply Htrue].
    + eexists _, _. split; [apply trackAttempt_below; try done; lia |].
      rewrite Hw. split; [| done]. split; [done |].
      unfold attemptsOf, blocked in *; simpl. split; [| split; [| done]].
      * intros g'. destruct (decide (g = g')) as [<- | Hne];
          [rewrite lookup_insert_eq; simpl; lia | by rewrite lookup_insert_ne].
      * intros g' Hb'. destruct (decide (g = g')) as [<- | Hne];
          [rewrite lookup_insert_eq; simpl; lia
          | rewrite lookup_insert_ne by done; by apply Hfree].
Qed.

Lemma well_formed_cleanup now t :
  well_formed t ->
  exists t' tr,
    cleanup now t = Some (tt, t', tr) /\ well_formed t' /\
    forallb reports_six tr = true.
Proof.
  intros (Hmu & Hrange & Hfree & Htrue).
  destruct (Z_lt_le_dec (Sub now (lastReset t)) Minute) as [H | H].
  - eexists _, _. split; [by apply cleanup_keep |]. by split.
  - eexists _, _. split; [by apply cleanup_reset |]. split; [| done].
    split; [done |]. unfold attemptsOf, blocked in *; simpl.
    split; [intros g; rewrite lookup_empty; simpl; lia |].
    split; [intros g _; rewrite lookup_empty; simpl; lia | done].
Qed.

Lemma loop_from_well_formed inputs t :
  well_formed t ->
  exists t' tr,
    mainLoop inputs t = Some (tt, t', tr) /\ well_formed t' /\
    forallb reports_six tr = true.
Proof.
  intros Hwf.
  destruct (lift_mainLoop well_formed (fun _ _ => True)
              (fun tr => forallb reports_six tr = true))
    with (inputs := inputs) (t := t) as (t' & tr & Hr & Hwf' & _ & HG); try done.
  - by intros t0 [H _].
  - intros tr1 tr2 H1 H2. by rewrite forallb_app, H1, H2.
  - intros g t0 H0. destruct (well_formed_trackAttempt g t0 H0) as (t1 & tr1 & ? & ? & ?).
    by exists t1, tr1.
  - intros now t0 H0. destruct (well_formed_cleanup now t0 H0) as (t1 & tr1 & ? & ? & ?).
    by exists t1, tr1.
  - by exists t', tr.
Qed.

(** X7.  In every state the loop reaches from a fresh tracker, each counter
    is between 0 and 6, the counter of a subnet that is not blocked is at
    most 5, and the blacklist holds only [true] entries; so the increment
    in [trackAttempt] never overflows the Go [int]. *)
Theorem reached_counters_are_bounded (now0 : Z) (inputs : list input) :
  exists t tr,
    mainLoop inputs (NewTracker now0) = Some (tt, t, tr) /\
    mu t = false /\
    (forall g, 0 <= attemptsOf t g <= 6) /\
    (forall g, blocked t g = false -> attemptsOf t g <= 5) /\
    (forall g v, blacklist t !! g = Some v -> v = true) /\
    (forall g, wrap64 (attemptsOf t g + 1) = attemptsOf t g + 1).
Proof.
  destruct (loop_from_well_formed inputs (NewTracker now0) (well_formed_NewTracker now0))
    as (t & tr & Hr & (Hmu & Hrange & Hfree & Htrue) & _).
  exists t, tr. do 5 (split; [done |]).
  intros g. pose proof (Hrange g). apply wrap64_small. lia.
Qed.

(** X8.  In every run of the loop from a fresh tracker, each block message,
    whether printed, logged or posted, reports exactly 6 attempts. *)
Theorem block_messages_report_six (now0 : Z) (inputs : list input) :
  exists t tr,
    mainLoop inputs (NewTracker now0) = Some (tt, t, tr) /\
    forallb reports_six tr = true /\
    (forall g n, In (Post (MsgBlock g n)) tr -> n = 6) /\
    (forall g n, In (Log (RecBlock (MsgBlock g n))) tr -> n = 6) /\
    (forall g n, In (Print (MsgBlockPlain g n)) tr -> n = 6).
Proof.
  destruct (loop_from_well_formed inputs (NewTracker now0) (well_formed_NewTracker now0))
    as (t & tr & Hr & _ & Hsix).
  exists t, tr. split; [done |]. split; [done |].
  rewrite forallb_forall in Hsix.
  split; [| split]; intros g n Hin; specialize (Hsix _ Hin); simpl in Hsix; lia.
Qed.

(** ** What the loop writes *)

Lemma announced_in_order_app tr1 tr2 :
  announced_in_order tr1 -> announced_in_order tr2 ->
  announced_in_order (tr1 ++ tr2)%list.
Proof.
  intros (Hp1 & Hq1 & Hl1 & Hm1) (Hp2 & Hq2 & Hl2 & Hm2).
  unfold announced_in_order.
  rewrite printed_app, posted_app, logged_app, map_app, Hp1, Hp2, Hq1, Hq2.
  by rewrite (lag_app _ _ _ _ _ _ Hl1), (lag_app _ _ _ _ _ _ Hm1).
Qed.

(** X9.  In every run of the loop, the messages posted to the webhook are
    the messages of the "Event:" and "Block:" records, in the same order,
    and the lines written to standard output are those messages in their
    console form: the same text for a login or an activity, and for a block
    the line without backquotes that reports the same subnet and count.
    Each message is printed before it is logged and logged before it is
    posted. *)
Theorem alerts_are_printed_logged_posted (t : SubnetTracker) (inputs : list input) :
  mu t = false ->
  exists t' tr,
    mainLoop inputs t = Some (tt, t', tr) /\
    printed tr = map console (logged tr) /\ posted tr = logged tr /\
    lag is_print is_alert_record 0 tr = Some 0%nat /\
    lag is_alert_record is_post 0 tr = Some 0%nat.
Proof.
  intros Hmu.
  destruct (lift_mainLoop (fun t => mu t = false) (fun _ _ => True) announced_in_order)
    with (inputs := inputs) (t := t) as (t' & tr & Hr & _ & _ & HG); try done.
  - apply announced_in_order_app.
  - intros g t0 H0.
    destruct (trackAttempt_cases g t0 H0) as (t1 & tr1 & Hr1 & Hm1 & _ & Htr).
    exists t1, tr1. split; [done |]. split; [done |]. split; [done |].
    by destruct Htr as [-> | [-> | [n ->]]].
  - intros now t0 H0.
    destruct (cleanup_cases now t0 H0) as (t1 & tr1 & Hr1 & Hm1 & _ & Htr).
    exists t1, tr1. split; [done |]. split; [done |]. split; [done |].
    by destruct Htr as [-> | ->].
  - by exists t', tr.
Qed.

Lemma alerts_are_printed_logged_posted_witness :
  mu at_threshold = false /\
  exists t' tr,
    mainLoop [mkInput failed_line None 1; mkInput accepted_line None 2] at_threshold
      = Some (tt, t', tr) /\
    posted tr = logged tr.
Proof.
  split; [reflexivity |].
  destruct (alerts_are_printed_logged_posted at_threshold
              [mkInput failed_line None 1; mkInput accepted_line None 2])
    as (t' & tr & Hr & _ & Hq & _); [reflexivity |].
  exists t', tr. split; [exact Hr | exact Hq].
Defined.

Lemma disciplined_app tr1 tr2 :
  disciplined tr1 -> disciplined tr2 -> disciplined (tr1 ++ tr2)%list.
Proof.
  intros (Hg1 & Hm1) (Hg2 & Hm2). unfold disciplined.
  by rewrite forallb_app, Hg1, Hg2, (mutex_after_app _ _ _ _ Hm1).
Qed.

(** X10.  In every run of the loop the only field accesses made with the
    mutex free are reads of [lastReset]: no write and no access to the two
    maps ever happens outside the lock.  The calls of Lock and Unlock
    alternate and end with the mutex free, so the loop never waits for a
    mutex it holds itself. *)
Theorem loop_keeps_the_lock_discipline (t : SubnetTracker) (inputs : list input) :
  mu t = false ->
  exists t' tr,
    mainLoop inputs t = Some (tt, t', tr) /\ mu t' = false /\
    forallb guarded_or_lastReset_read tr = true /\
    mutex_after false tr = Some false /\
    forall f, ~ In (Write f false) tr.
Proof.
  intros Hmu.
  destruct (lift_mainLoop (fun t => mu t = false) (fun _ _ => True) disciplined)
    with (inputs := inputs) (t := t) as (t' & tr & Hr & Hmu' & _ & Hg & Hm); try done.
  - apply disciplined_app.
  - intros g t0 H0.
    destruct (trackAttempt_cases g t0 H0) as (t1 & tr1 & Hr1 & Hm1 & _ & Htr).
    exists t1, tr1. split; [done |]. split; [done |]. split; [done |].
    by destruct Htr as [-> | [-> | [n ->]]].
  - intros now t0 H0.
    destruct (cleanup_cases now t0 H0) as (t1 & tr1 & Hr1 & Hm1 & _ & Htr).
    exists t1, tr1. split; [done |]. split; [done |]. split; [done |].
    by destruct Htr as [-> | ->].
  - exists t', tr. do 4 (split; [done |]).
    intros f Hin. rewrite forallb_forall in Hg. specialize (Hg _ Hin).
    by destruct f.
Qed.

Lemma loop_keeps_the_lock_discipline_witness :
  mu at_threshold = false /\
  exists t' tr,
    mainLoop [mkInput failed_line None (2 * Minute)] at_threshold = Some (tt, t', tr) /\
    mutex_after false tr = Some false.
Proof.
  split; [reflexivity |].
  destruct (loop_keeps_the_lock_discipline at_threshold
              [mkInput failed_line None (2 * Minute)])
    as (t' & tr & Hr & _ & _ & Hm & _); [reflexivity |].
  exists t', tr. split; [exact Hr | exact Hm].
Defined.

(** X11.  Every line the loop consumes is written to the log file as a raw
    record, once and in arrival order, whether the line is relevant or not
    and whatever else the turn does. *)
Theorem every_line_is_logged_raw (t : SubnetTracker) (inputs : list input) :
  mu t = false ->
  exists t' tr,
    mainLoop inputs t = Some (tt, t', tr) /\
    raw_lines tr = map in_line inputs.
Proof.
  revert t. induction inputs as [| i rest IH]; intros t Hmu.
  - by exists t, [].
  - destruct (lift_turn (fun t => mu t = false) (fun _ _ => True)
                (fun tr => raw_lines tr = []))
      with (i := i) (t := t) as (t1 & tr1 & Hr1 & Hmu1 & _ & Hraw); try done.
    + intros tr1 tr2 H1 H2. by rewrite raw_lines_app, H1, H2.
    + intros g t0 H0.
      destruct (trackAttempt_cases g t0 H0) as (t1 & tr1 & Hr1 & Hm1 & _ & Htr).
      exists t1, tr1. split; [done |]. split; [done |]. split; [done |].
      by destruct Htr as [-> | [-> | [n ->]]].
    + intros now t0 H0.
      destruct (cleanup_cases now t0 H0) as (t1 & tr1 & Hr1 & Hm1 & _ & Htr).
      exists t1, tr1. split; [done |]. split; [done |]. split; [done |].
      by destruct Htr as [-> | ->].
    + destruct (IH t1 Hmu1) as (t2 & tr2 & Hr2 & Hraw2).
      eexists _, _. cbn [mainLoop]. unfold bind. rewrite Hr1, Hr2.
      split; [reflexivity |].
      change (raw_lines ((Log (RecRaw (in_line i)) :: tr1) ++ tr2)%list)
        with (in_line i :: raw_lines (tr1 ++ tr2)%list).
      by rewrite raw_lines_app, Hraw, Hraw2.
Qed.

Lemma every_line_is_logged_raw_witness :
  mu after_block = false /\
  exists t' tr,
    mainLoop [mkInput kernel_line None 1; mkInput failed_line None 2] after_block
      = Some (tt, t', tr) /\
    raw_lines tr = [kernel_line; failed_line].
Proof.
  split; [reflexivity |].
  destruct (every_line_is_logged_raw after_block
              [mkInput kernel_line None 1; mkInput failed_line None 2])
    as (t' & tr & Hr & Hraw); [reflexivity |].
  exists t', tr. split; [exact Hr | exact Hraw].
Defined.

(** ** One subnet at a time *)

(** X12.  [trackAttempt] for one subnet leaves every other subnet as it
    was: its counter, whether it is blocked, and no block alert for it; the
    window start is not touched either. *)
Theorem trackAttempt_touches_one_subnet (t : SubnetTracker) (g g' : string) :
  mu t = false -> g' <> g ->
  exists t' tr,
    trackAttempt g t = Some (tt, t', tr) /\
    attemptsOf t' g' = attemptsOf t g' /\
    blocked t' g' = blocked t g' /\
    lastReset t' = lastReset t /\
    block_alerts g' tr = 0%nat.
Proof.
  intros Hmu Hne. destruct (blocked t g) eqn:Hb.
  - eexists _, _. split; [by apply trackAttempt_blocked |]. done.
  - destruct (Z_lt_le_dec 5 (wrap64 (attemptsOf t g + 1))) as [Hn | Hn].
    + eexists _, _. split; [by apply trackAttempt_over |].
      unfold attemptsOf, blocked; simpl. rewrite !lookup_insert_ne by done.
      do 3 (split; [done |]).
      unfold block_alerts, tr_block; simpl.
      by rewrite (proj2 (String.eqb_neq g g') (not_eq_sym Hne)).
    + eexists _, _. split; [by apply trackAttempt_below |].
      unfold attemptsOf, blocked; simpl. rewrite !lookup_insert_ne by done. done.
Qed.

Lemma trackAttempt_touches_one_subnet_witness :
  mu at_threshold = false /\ "192.168.1.0/24" <> subnet0 /\
  exists t' tr,
    trackAttempt subnet0 at_threshold = Some (tt, t', tr) /\
    blocked t' "192.168.1.0/24" = false.
Proof.
  split; [reflexivity |]. split; [intros H; discriminate H |].
  destruct (trackAttempt_touches_one_subnet at_threshold subnet0 "192.168.1.0/24")
    as (t' & tr & Hr & _ & Hb & _); [reflexivity | intros H; discriminate H |].
  exists t', tr. split; [exact Hr |]. rewrite Hb. vm_compute; reflexivity.
Defined.

Lemma repeated_attempts_on_blocked g k : forall t,
  mu t = false -> blocked t g = true ->
  exists tr, runOps (repeat (OpTrackAttempt g) k) t = Some (tt, t, tr) /\
             posted tr = [].
Proof.
  induction k as [| k IH]; intros t Hmu Hb; [by exists [] |].
  destruct (IH t Hmu Hb) as (tr & Hr & Hp).
  exists (tr_query ++ tr)%list. cbn [repeat runOps runOp]. unfold bind.
  rewrite (trackAttempt_blocked t g Hmu Hb), Hr. split; [done |].
  by rewrite posted_app, Hp.
Qed.

(** X13.  Calls of [trackAttempt] for one subnet add up: from a counter
    [c] between 0 and 5 of a subnet that is not blocked, [k] calls leave the
    counter at [c + k] as long as that is at most 5; the call that reaches 6
    blocks the subnet, and the calls after it change nothing. *)
Theorem attempts_add_up_to_the_block (g : string) (k : nat) (t : SubnetTracker) :
  mu t = false -> blocked t g = false -> 0 <= attemptsOf t g <= 5 ->
  exists t' tr,
    runOps (repeat (OpTrackAttempt g) k) t = Some (tt, t', tr) /\
    attemptsOf t' g = Z.min (attemptsOf t g + Z.of_nat k) 6 /\
    blocked t' g = (5 <? attemptsOf t g + Z.of_nat k).
Proof.
  revert t. induction k as [| k IH]; intros t Hmu Hb Hc.
  - exists t, []. split; [done |].
    split; [lia |]. rewrite Hb. symmetry. apply Z.ltb_ge. lia.
  - assert (Hw : wrap64 (attemptsOf t g + 1) = attemptsOf t g + 1)
      by (apply wrap64_small; lia).
    cbn [repeat runOps runOp]. unfold bind.
    destruct (Z_lt_le_dec 5 (attemptsOf t g + 1)) as [Hn | Hn].
    + rewrite (trackAttempt_over t g Hmu Hb) by lia.
      destruct (repeated_attempts_on_blocked g k
                  (mkTracker false (<[g := wrap64 (attemptsOf t g + 1)]> (attempts t))
                             (<[g := true]> (blacklist t)) (lastReset t)))
        as (tr & -> & _); [done | by rewrite blocked_insert |].
      eexists _, _. split; [reflexivity |].
      rewrite attemptsOf_insert, blocked_insert, Hw.
      split; [lia |]. symmetry. apply Z.ltb_lt. lia.
    + rewrite (trackAttempt_below t g Hmu Hb) by lia.
      destruct (IH (mkTracker false (<[g := wrap64 (attemptsOf t g + 1)]> (attempts t))
                              (blacklist t) (lastReset t)))
        as (t' & tr & -> & Hcnt & Hblk);
        [done | by destruct t | rewrite attemptsOf_insert, Hw; lia |].
      exists t', (tr_count ++ tr)%list. split; [reflexivity |].
      rewrite attemptsOf_insert, Hw in Hcnt, Hblk.
      split; [rewrite Hcnt; f_equal; lia | rewrite Hblk; f_equal; lia].
Qed.

Lemma attempts_add_up_to_the_block_witness :
  mu (NewTracker 0) = false /\ blocked (NewTracker 0) subnet0 = false /\
  0 <= attemptsOf (NewTracker 0) subnet0 <= 5 /\
  exists t' tr,
    runOps (repeat (OpTrackAttempt subnet0) 9) (NewTracker 0) = Some (tt, t', tr) /\
    attemptsOf t' subnet0 = 6 /\ blocked t' subnet0 = true.
Proof.
  split; [reflexivity |]. split; [reflexivity |].
  split; [vm_compute; split; intros H; discriminate H |].
  destruct (attempts_add_up_to_the_block subnet0 9 (NewTracker 0))
    as (t' & tr & Hr & Hc & Hb);
    [reflexivity | reflexivity | vm_compute; split; intros H; discriminate H |].
  exists t', tr. split; [exact Hr |].
  split; [rewrite Hc | rewrite Hb]; vm_compute; reflexivity.
Defined.

(** ** The window after a reset *)

(** X14.  A second [cleanup] with the same clock reading changes nothing,
    and after a reset at [now] every [cleanup] whose clock reading is less
    than a minute past [now] leaves the tracker as it is: a window that has
    just begun is kept for a full minute. *)
Theorem cleanup_again_is_a_noop (now : Z) (t : SubnetTracker) :
  mu t = false ->
  exists t' tr,
    cleanup now t = Some (tt, t', tr) /\
    cleanup now t' = Some (tt, t', [Read LastReset false]) /\
    (Minute <= Sub now (lastReset t) ->
     forall now', now' - now < Minute ->
       cleanup now' t' = Some (tt, t', [Read LastReset false])).
Proof.
  intros Hmu. destruct (Z_lt_le_dec (Sub now (lastReset t)) Minute) as [H | H].
  - exists t, [Read LastReset (mu t)]. split; [by apply cleanup_keep |].
    pose proof (cleanup_keep now t H) as Hk. rewrite Hmu in Hk.
    split; [exact Hk | lia].
  - eexists _, _. split; [by apply cleanup_reset |].
    assert (Hkeep : forall now', now' - now < Minute ->
              cleanup now' (mkTracker false ∅ (blacklist t) now) =
                Some (tt, mkTracker false ∅ (blacklist t) now, [Read LastReset false])).
    { intros now' Hlt.
      apply (cleanup_keep now' (mkTracker false ∅ (blacklist t) now)).
      by apply Sub_lt_Minute. }
    split; [apply Hkeep; unfold Minute; lia | by intros _].
Qed.

Lemma cleanup_again_is_a_noop_witness :
  mu at_threshold = false /\
  exists t' tr,
    cleanup (2 * Minute) at_threshold = Some (tt, t', tr) /\
    cleanup (2 * Minute) t' = Some (tt, t', [Read LastReset false]).
Proof.
  split; [reflexivity |].
  destruct (cleanup_again_is_a_noop (2 * Minute) at_threshold)
    as (t' & tr & Hr & Hagain & _); [reflexivity |].
  exists t', tr. split; [exact Hr | exact Hagain].
Defined.

(** ** After the block *)

Lemma cleanup_is_silent now t :
  mu t = false ->
  exists t' tr,
    cleanup now t = Some (tt, t', tr) /\ mu t' = false /\
    blacklist t' = blacklist t /\ posted tr = [] /\ printed tr = [] /\ logged tr = [].
Proof.
  intros Hmu. destruct (Z_lt_le_dec (Sub now (lastReset t)) Minute) as [H | H].
  - eexists _, _. split; [by apply cleanup_keep |]. done.
  - eexists _, _. split; [by apply cleanup_reset |]. done.
Qed.

(** X15.  Once a subnet is blocked it stays silent: over every run of the
    loop on lines whose addresses all belong to that subnet, relevant or
    not, nothing is posted, printed or logged as an event, the subnet stays
    blocked, and the blacklist is never written. *)
Theorem blocked_subnet_stays_silent (g : string) (inputs : list input) (t : SubnetTracker) :
  mu t = false -> blocked t g = true ->
  (forall i, In i inputs -> relevant (in_line i) = true ->
             getSubnet (extractIP (in_line i)) = g) ->
  exists t' tr,
    mainLoop inputs t = Some (tt, t', tr) /\
    posted tr = [] /\ printed tr = [] /\ logged tr = [] /\
    blacklist t' = blacklist t /\ blocked t' g = true.
Proof.
  revert t. induction inputs as [| i rest IH]; intros t Hmu Hb Hall.
  - by exists t, [].
  - assert (Hturn : exists t1 tr1,
              loopBody i t = Some (tt, t1, tr1) /\ mu t1 = false /\
              blacklist t1 = blacklist t /\
              posted tr1 = [] /\ printed tr1 = [] /\ logged tr1 = []).
    { destruct (relevant (in_line i)) eqn:Hrel.
      - pose proof (Hall i (or_introl eq_refl) Hrel) as Hg.
        destruct (cleanup_is_silent (in_now i) t Hmu)
          as (t1 & tr1 & Hc & Hmu1 & Hbl & Hp & Hq & Hl).
        eexists _, _. split.
        { eapply loopBody_relevant; [done | | exact Hc].
          apply handleEvent_blocked; [done | by rewrite Hg]. }
        split; [done |]. split; [done |].
        change (Log (RecRaw (in_line i))
                  :: (tr_query ++ [Log (RecBlocked (extractIP (in_line i))
                                     (getSubnet (extractIP (in_line i))))]) ++ tr1)%list
          with ([Log (RecRaw (in_line i)); Lock; Read Blacklist true; Unlock;
                 Log (RecBlocked (extractIP (in_line i))
                        (getSubnet (extractIP (in_line i))))] ++ tr1)%list.
        by rewrite posted_app, printed_app, logged_app, Hp, Hq, Hl.
      - eexists _, _. split; [by apply loopBody_skip |]. done. }
    destruct Hturn as (t1 & tr1 & Hr1 & Hmu1 & Hbl1 & Hp1 & Hq1 & Hl1).
    destruct (IH t1) as (t2 & tr2 & Hr2 & Hp2 & Hq2 & Hl2 & Hbl2 & Hb2).
    + done.
    + unfold blocked in *. by rewrite Hbl1.
    + intros j Hj. apply Hall. by right.
    + exists t2, (tr1 ++ tr2)%list. cbn [mainLoop]. unfold bind. rewrite Hr1, Hr2.
      split; [done |].
      rewrite posted_app, printed_app, logged_app, Hp1, Hp2, Hq1, Hq2, Hl1, Hl2.
      do 3 (split; [done |]). split; [by rewrite Hbl2 | done].
Qed.

Lemma blocked_subnet_stays_silent_witness :
  mu after_block = false /\ blocked after_block subnet0 = true /\
  exists t' tr,
    mainLoop [mkInput failed_line None 1; mkInput kernel_line None 2;
              mkInput accepted_line None (5 * Minute)] after_block
      = Some (tt, t', tr) /\
    posted tr = [].
Proof.
  split; [reflexivity |]. split; [vm_compute; reflexivity |].
  destruct (blocked_subnet_stays_silent subnet0
              [mkInput failed_line None 1; mkInput kernel_line None 2;
               mkInput accepted_line None (5 * Minute)] after_block)
    as (t' & tr & Hr & Hp & _); [reflexivity | vm_compute; reflexivity | |].
  - intros i [<- | [<- | [<- | []]]] Hrel;
      [vm_compute; reflexivity | vm_compute in Hrel; discriminate Hrel
      | vm_compute; reflexivity].
  - exists t', tr. split; [exact Hr | exact Hp].
Defined.

(** ** An attempt that arrives when the window has run out *)

(** X16.  In a turn, [trackAttempt] runs before [cleanup].  So a failed
    attempt that arrives a minute or more after [lastReset] is counted on
    top of the counter of the window that has run out, and blocks the
    subnet if that makes more than 5; the reset of the same turn then
    starts the new window with no attempt counted, this one included. *)
Theorem attempt_on_expiry_counts_for_the_old_window (i : input) (t : SubnetTracker) :
  mu t = false ->
  relevant (in_line i) = true ->
  Strings.Contains (in_line i) "Accepted" = false ->
  blocked t (getSubnet (extractIP (in_line i))) = false ->
  Minute <= Sub (in_now i) (lastReset t) ->
  exists t' tr,
    loopBody i t = Some (tt, t', tr) /\
    attempts t' = ∅ /\ lastReset t' = in_now i /\
    blocked t' (getSubnet (extractIP (in_line i))) =
      (5 <? wrap64 (attemptsOf t (getSubnet (extractIP (in_line i))) + 1)).
Proof.
  intros Hmu Hrel Hacc Hb Hexp. set (g := getSubnet (extractIP (in_line i))) in *.
  destruct (Z_lt_le_dec 5 (wrap64 (attemptsOf t g + 1))) as [Hn | Hn].
  - eexists _, _. split.
    { eapply loopBody_relevant; [done | |].
      - eapply handleEvent_failed; try done. by apply trackAttempt_over.
      - by apply cleanup_reset. }
    split; [done |]. split; [done |].
    unfold blocked; simpl. rewrite lookup_insert_eq. simpl.
    symmetry. by apply Z.ltb_lt.
  - eexists _, _. split.
    { eapply loopBody_relevant; [done | |].
      - eapply handleEvent_failed; try done. by apply trackAttempt_below.
      - by apply cleanup_reset. }
    split; [done |]. split; [done |].
    change (blocked t g = (5 <? wrap64 (attemptsOf t g + 1))).
    rewrite Hb. symmetry. by apply Z.ltb_ge.
Qed.

Lemma attempt_on_expiry_counts_for_the_old_window_witness :
  mu at_threshold = false /\
  relevant failed_line = true /\
  Strings.Contains failed_line "Accepted" = false /\
  blocked at_threshold (getSubnet (extractIP failed_line)) = false /\
  Minute <= Sub (10 * Minute) (lastReset at_threshold) /\
  exists t' tr,
    loopBody (mkInput failed_line None (10 * Minute)) at_threshold = Some (tt, t', tr) /\
    attempts t' = ∅ /\ blocked t' subnet0 = true.
Proof.
  split; [reflexivity |]. split; [vm_compute; reflexivity |].
  split; [vm_compute; reflexivity |]. split; [vm_compute; reflexivity |].
  split; [vm_compute; intros H; discriminate H |].
  destruct (attempt_on_expiry_counts_for_the_old_window
              (mkInput failed_line None (10 * Minute)) at_threshold)
    as (t' & tr & Hr & Ha & _ & Hb);
    [reflexivity | vm_compute; reflexivity | vm_compute; reflexivity
    | vm_compute; reflexivity | vm_compute; intros H; discriminate H |].
  exists t', tr. split; [exact Hr |]. split; [exact Ha |].
  assert (Hg : getSubnet (extractIP failed_line) = subnet0) by (vm_compute; reflexivity).
  cbn [in_line] in Hb. rewrite Hg in Hb. rewrite Hb. vm_compute; reflexivity.
Defined.

(** ** getGeoIP *)

(** X17.  [getGeoIP] never returns the empty string.  For an address that
    is not empty, an answer with the status "success" and a city and a
    country that are not empty, it returns "City, Country"; in every other
    case (an empty address, a failed request, another status, a missing
    city or country) it returns "Unknown". *)
Theorem getGeoIP_is_Unknown_or_city_and_country (resp : option GeoResult) (ip : string) :
  getGeoIP resp ip <> "" /\
  (forall r, resp = Some r -> ip <> "" -> Status r = "success" ->
             City r <> "" -> Country r <> "" ->
             getGeoIP resp ip = City r ++ ", " ++ Country r) /\
  (ip = "" \/ resp = None \/
   (exists r, resp = Some r /\
              (Status r <> "success" \/ City r = "" \/ Country r = "")) ->
   getGeoIP resp ip = "Unknown").
Proof.
  unfold getGeoIP. destruct (String.eqb_spec ip "") as [-> | Hip].
  { split; [done |]. split; [by intros r _ H | done]. }
  destruct resp as [r |].
  2: { split; [done |]. split; [by intros r H | done]. }
  destruct (String.eqb_spec (Status r) "success") as [Hs | Hs].
  2: { split; [done |]. split; [by intros r' [= <-] _ H | done]. }
  destruct (String.eqb_spec (City r) "") as [Hc | Hc].
  { split; [done |]. split; [by intros r' [= <-] _ _ H | done]. }
  destruct (String.eqb_spec (Country r) "") as [Hk | Hk].
  { split; [done |]. split; [by intros r' [= <-] _ _ _ H | done]. }
  cbn [negb andb]. split; [| split].
  - destruct (City r); [done | discriminate].
  - by intros r' [= <-].
  - intros [H | [H | (r' & [= <-] & [H | [H | H]])]]; done.
Qed.

Lemma getGeoIP_is_Unknown_or_city_and_country_witness :
  let answer := mkGeo "Germany" "Berlin" "success" in
  "10.0.0.7" <> "" /\ Status answer = "success" /\
  City answer <> "" /\ Country answer <> "" /\
  getGeoIP (Some answer) "10.0.0.7" = "Berlin, Germany" /\
  getGeoIP (Some (mkGeo "Germany" "" "success")) "10.0.0.7" = "Unknown".
Proof.
  intros answer.
  split; [intros H; discriminate H |]. split; [reflexivity |].
  split; [intros H; discriminate H |]. split; [intros H; discriminate H |].
  split.
  - apply (proj1 (proj2 (getGeoIP_is_Unknown_or_city_and_country
                           (Some answer) "10.0.0.7")) answer);
      [reflexivity | intros H; discriminate H | reflexivity
      | intros H; discriminate H | intros H; discriminate H].
  - apply (proj2 (proj2 (getGeoIP_is_Unknown_or_city_and_country
                           (Some (mkGeo "Germany" "" "success")) "10.0.0.7"))).
    right; right. eexists. split; [reflexivity |]. right; left. reflexivity.
Defined.

(** ** The pre-filter *)

Lemma HasPrefix_iff s p : Strings.HasPrefix s p = true <-> exists post, s = p ++ post.
Proof.
  split.
  - intros H. eexists. by apply HasPrefix_skip.
  - intros [post ->]. induction p as [| b p IH]; [by destruct post |].
    change (Ascii.eqb b b && Strings.HasPrefix (p ++ post) p = true).
    by rewrite Ascii.eqb_refl, IH.
Qed.

Lemma Contains_iff s sub : Strings.Contains s sub = true <-> occurs_in sub s.
Proof.
  split.
  - induction s as [| c s IH]; cbn [Strings.Contains];
      intros [H | H]%orb_true_iff; try discriminate H.
    + apply HasPrefix_iff in H as [post ->]. by exists EmptyString, post.
    + apply HasPrefix_iff in H as [post ->]. by exists EmptyString, post.
    + destruct (IH H) as (pre & post & ->). by exists (String c pre), post.
  - intros (pre & post & ->). induction pre as [| c pre IH].
    + assert (H : Strings.HasPrefix (sub ++ post) sub = true)
        by (apply HasPrefix_iff; by eexists).
      change ("" ++ sub ++ post) with (sub ++ post).
      destruct (sub ++ post); cbn [Strings.Contains]; by rewrite H.
    + change (String c pre ++ sub ++ post) with (String c (pre ++ sub ++ post)).
      cbn [Strings.Contains]. rewrite IH. apply orb_true_r.
Qed.

Lemma ToLower_app a b : Strings.ToLower (a ++ b) = Strings.ToLower a ++ Strings.ToLower b.
Proof.
  induction a as [| x a IH]; [reflexivity |].
  change (String (Strings.lower x) (Strings.ToLower (a ++ b)) =
          String (Strings.lower x) (Strings.ToLower a ++ Strings.ToLower b)).
  by rewrite IH.
Qed.

Lemma ToLower_split line : forall u v,
  Strings.ToLower line = u ++ v ->
  exists a b, line = a ++ b /\ Strings.ToLower a = u /\ Strings.ToLower b = v.
Proof.
  induction line as [| x line IH]; intros u v H.
  - destruct u; [| discriminate H]. exists EmptyString, EmptyString.
    split; [done |]. split; [done |]. by destruct v.
  - destruct u as [| y u].
    + exists EmptyString, (String x line). by split.
    + change (String (Strings.lower x) (Strings.ToLower line) = String y (u ++ v)) in H.
      injection H as Hxy H. destruct (IH _ _ H) as (a & b & -> & Ha & Hb).
      exists (String x a), b. split; [done |]. split; [| done].
      change (String (Strings.lower x) (Strings.ToLower a) = String y u).
      by rewrite Hxy, Ha.
Qed.

Ltac decide_letter :=
  split;
  [ intros H; first [discriminate H | left; reflexivity | right; reflexivity]
  | intros [H | H]; first [discriminate H | reflexivity] ].

Lemma lower_is_s x :
  Strings.lower x = "s"%char <-> x = "s"%char \/ x = "S"%char.
Proof.
  destruct x as [[] [] [] [] [] [] [] []]; vm_compute; decide_letter.
Qed.

Lemma lower_is_h x :
  Strings.lower x = "h"%char <-> x = "h"%char \/ x = "H"%char.
Proof.
  destruct x as [[] [] [] [] [] [] [] []]; vm_compute; decide_letter.
Qed.

Lemma ToLower_is_ssh w :
  Strings.ToLower w = "ssh" <->
  exists x y z,
    w = String x (String y (String z EmptyString)) /\
    (x = "s" \/ x = "S")%char /\ (y = "s" \/ y = "S")%char /\ (z = "h" \/ z = "H")%char.
Proof.
  split.
  - destruct w as [| x [| y [| z [| ? ?]]]]; try discriminate.
    cbn [Strings.ToLower]. intros [= Hx Hy Hz].
    exists x, y, z. split; [done |].
    by rewrite <- !lower_is_s, <- lower_is_h.
  - intros (x & y & z & -> & Hx & Hy & Hz). cbn [Strings.ToLower].
    apply lower_is_s in Hx, Hy. apply lower_is_h in Hz. by rewrite Hx, Hy, Hz.
Qed.

(** X18.  The pre-filter of the loop lets a line through exactly when the
    line contains an "s" or "S", an "s" or "S" and an "h" or "H" one after
    the other: "ssh", "SSH", "Ssh" and the like all pass.  The success
    marker is looked for as it is written: a line counts as accepted
    exactly when "Accepted" occurs in it. *)
Theorem ssh_filter_ignores_case (line : string) :
  (Strings.Contains (Strings.ToLower line) "ssh" = true <->
   exists pre x y z post,
     line = pre ++ String x (String y (String z post)) /\
     (x = "s" \/ x = "S")%char /\ (y = "s" \/ y = "S")%char /\
     (z = "h" \/ z = "H")%char) /\
  (Strings.Contains line "Accepted" = true <-> occurs_in "Accepted" line).
Proof.
  split; [| apply Contains_iff]. rewrite Contains_iff. split.
  - intros (u & v & H).
    destruct (ToLower_split _ _ _ H) as (pre & rest & -> & Hpre & Hrest).
    destruct (ToLower_split _ _ _ Hrest) as (w & post & -> & Hw & Hpost).
    apply ToLower_is_ssh in Hw as (x & y & z & -> & Hx & Hy & Hz).
    by exists pre, x, y, z, post.
  - intros (pre & x & y & z & post & -> & Hx & Hy & Hz).
    exists (Strings.ToLower pre), (Strings.ToLower post).
    change (String x (String y (String z post)))
      with (String x (String y (String z EmptyString)) ++ post).
    assert (Hw : Strings.ToLower (String x (String y (String z EmptyString))) = "ssh")
      by (apply ToLower_is_ssh; by exists x, y, z).
    by rewrite !ToLower_app, Hw.
Qed.

(** ** What blocks a subnet *)

Lemma handleEvent_blacklist line ip geo t :
  mu t = false ->
  exists t1 tr1,
    handleEvent line ip geo t = Some (tt, t1, tr1) /\ mu t1 = false /\
    (blacklist t1 = blacklist t \/
     (Strings.Contains line "Accepted" = false /\
      5 < wrap64 (attemptsOf t (getSubnet ip) + 1) /\
      blacklist t1 = <[getSubnet ip := true]> (blacklist t))).
Proof.
  intros Hmu. destruct (blocked t (getSubnet ip)) eqn:Hb.
  - eexists _, _. split; [by apply handleEvent_blocked |]. by split; [| left].
  - destruct (Strings.Contains line "Accepted") eqn:Hacc.
    + eexists _, _. split; [by apply handleEvent_accepted |]. by split; [| left].
    + destruct (Z_lt_le_dec 5 (wrap64 (attemptsOf t (getSubnet ip) + 1))) as [Hn | Hn].
      * eexists _, _.
        split; [eapply handleEvent_failed; try done; by apply trackAttempt_over |].
        split; [done |]. by right.
      * eexists _, _.
        split; [eapply handleEvent_failed; try done; by apply trackAttempt_below |].
        split; [done |]. by left.
Qed.

(** X19.  A turn of the loop blocks a subnet only through a line of that
    very subnet: if a subnet that was not blocked is blocked after the
    turn, the line passed both filters, does not contain "Accepted", its
    address belongs to the subnet, and the attempt made the counter of the
    subnet exceed 5.  Accepted logins, lines of other subnets and lines
    that are filtered out never block anything. *)
Theorem only_its_own_failed_line_blocks_a_subnet
    (i : input) (t : SubnetTracker) (g : string) :
  mu t = false -> blocked t g = false ->
  exists t' tr,
    loopBody i t = Some (tt, t', tr) /\
    (blocked t' g = true ->
       relevant (in_line i) = true /\
       Strings.Contains (in_line i) "Accepted" = false /\
       getSubnet (extractIP (in_line i)) = g /\
       5 < wrap64 (attemptsOf t g + 1)).
Proof.
  intros Hmu Hb. destruct (relevant (in_line i)) eqn:Hrel.
  - destruct (handleEvent_blacklist (in_line i) (extractIP (in_line i)) (in_geo i) t Hmu)
      as (t1 & tr1 & Hh & Hmu1 & Hbl).
    destruct (cleanup_is_silent (in_now i) t1 Hmu1) as (t2 & tr2 & Hc & _ & Hbl2 & _).
    eexists _, _. split; [by eapply loopBody_relevant |].
    unfold blocked in *. rewrite Hbl2.
    destruct Hbl as [-> | (Hacc & Hn & ->)]; [by rewrite Hb |].
    destruct (decide (getSubnet (extractIP (in_line i)) = g)) as [<- | Hg].
    + intros _. by repeat split.
    + rewrite lookup_insert_ne by done. by rewrite Hb.
  - eexists _, _. split; [by apply loopBody_skip |]. by rewrite Hb.
Qed.

Lemma only_its_own_failed_line_blocks_a_subnet_witness :
  mu at_threshold = false /\ blocked at_threshold subnet0 = false /\
  exists t' tr,
    loopBody (mkInput accepted_line None 1) at_threshold = Some (tt, t', tr) /\
    (blocked t' subnet0 = true ->
     Strings.Contains accepted_line "Accepted" = false).
Proof.
  split; [reflexivity |]. split; [vm_compute; reflexivity |].
  destruct (only_its_own_failed_line_blocks_a_subnet
              (mkInput accepted_line None 1) at_threshold subnet0)
    as (t' & tr & Hr & Himp); [reflexivity | vm_compute; reflexivity |].
  exists t', tr. split; [exact Hr |]. intros Hb. exact (proj1 (proj2 (Himp Hb))).
Defined.
